(** * Withdrawal dispatcher of [main.py]: shallow embedding and properties

    The development follows the layout of [main.py]:
    - [PyFloat]: the Python [float] arithmetic the dispatcher relies on
      ([float * int], [int(float)], [float <= 0]), over the IEEE 754 binary64
      specification of the Standard Library;
    - the contract registry [CONTRACTS] and the ordering built at the top of
      [process_withdrawal];
    - the chain client (web3) as an interface whose answers may depend on
      everything that happened before, and a small trace/exception monad;
    - [process_withdrawal], [withdraw_endpoint] and [init_web3];
    - the properties. *)

From Stdlib Require Import ZArith NArith List String Ascii Bool Lia Permutation.
From Stdlib Require Import Floats.SpecFloat.
Import ListNotations.

Open Scope Z_scope.
Open Scope string_scope.
Open Scope list_scope.

(** ** Python exceptions and results *)

(** The exception classes that occur in [main.py].  Every one of them is a
    subclass of [Exception], so both [except Exception] and a bare [except:]
    catch all of them.  [Web3Error] stands for whatever else the web3 and
    eth_account libraries raise (all of it derived from [Exception]). *)
Inductive PyExc : Type :=
| HTTPException (status_code : Z) (detail : string)
| ValueError (msg : string)
| TypeError (msg : string)
| OverflowError (msg : string)
| Web3Error (msg : string).

Inductive Result (A : Type) : Type :=
| Ok (a : A)
| Raise (e : PyExc).
Arguments Ok {A} a.
Arguments Raise {A} e.

(** [str(e)] of an exception, as used in the messages of the endpoint: the
    message the exception was raised with.  Of an [HTTPException] only the
    detail is kept, not the status code its rendering may carry in front;
    the status codes of the endpoint do not depend on it. *)
Definition str_exc (e : PyExc) : string :=
  match e with
  | HTTPException _ d => d
  | ValueError m | TypeError m | OverflowError m | Web3Error m => m
  end.

(** ** Python floats *)

Module PyFloat.

(** A Python [float] is an IEEE 754 binary64 value. *)
Definition prec : Z := 53.
Definition emax : Z := 1024.

Definition float := spec_float.

(** [float(n)] for a Python [int]: rounded to nearest even, and
    [OverflowError] when the integer is too large. *)
Definition of_int (n : Z) : Result float :=
  match binary_normalize prec emax n 0 false with
  | S754_infinity _ => Raise (OverflowError "int too large to convert to float")
  | f => Ok f
  end.

(** [x * y] on floats never raises: it overflows to an infinity. *)
Definition mul (x y : float) : float := SFmul prec emax x y.

(** [x / y] on finite non-zero floats (used to write decimal literals). *)
Definition div (x y : float) : float := SFdiv prec emax x y.

(** [x * n] for a float [x] and an int [n]: the int is converted first. *)
Definition mul_int (x : float) (n : Z) : Result float :=
  match of_int n with
  | Ok y => Ok (mul x y)
  | Raise e => Raise e
  end.

(** [int(x)]: truncation toward zero; infinities and NaN raise. *)
Definition to_int (x : float) : Result Z :=
  match x with
  | S754_zero _ => Ok 0
  | S754_finite s m e => Ok (cond_Zopp s (Z.shiftl (Zpos m) e))
  | S754_infinity _ => Raise (OverflowError "cannot convert float infinity to integer")
  | S754_nan => Raise (ValueError "cannot convert float NaN to integer")
  end.

(** [x <= 0]; false on NaN. *)
Definition le_zero (x : float) : bool := SFleb x (S754_zero false).

(** The double nearest to the fraction [n / d] of two small integers, that
    is the value of the decimal literal (for instance [decimal 3 2] is
    [1.5] and [decimal 7 100] is [0.07]). *)
Definition decimal (n d : Z) : float :=
  div (binary_normalize prec emax n 0 false) (binary_normalize prec emax d 0 false).

(** The literal [1.2] of the gas price multiplier. *)
Definition f1_2 : float := Eval vm_compute in decimal 6 5.

(** The literal [1.5] of the conversion examples. *)
Definition f1_5 : float := Eval vm_compute in decimal 3 2.

(** A well-formed double: the mantissa and exponent are in canonical form
    (what [float(...)] and every float operation produce). *)
Definition well_formed (x : float) : bool := valid_binary prec emax x.

End PyFloat.

(** ** Contract registry *)

(** An entry of [CONTRACTS] (a dict with keys [id], [name], [address]). *)
Record Contract : Type := mkContract {
  id : Z;
  name : string;
  address : string
}.

Definition CONTRACTS : list Contract :=
  [ mkContract 1 "Primary" "0x29983BE497D4c1D39Aa80D20Cf74173ae81D2af5";
    mkContract 2 "Secondary" "0x0b8Add0d32eFaF79E6DB4C58CcA61D6eFBCcAa3D";
    mkContract 3 "Tertiary" "0xf97A395850304b8ec9B8f9c80A17674886612065" ].

(** Equality of two entries is equality of the dicts: all three fields. *)
Definition contract_eqb (a b : Contract) : bool :=
  (id a =? id b)%Z && String.eqb (name a) (name b) && String.eqb (address a) (address b).

(** [c in l] for a list of dicts. *)
Fixpoint contract_in (c : Contract) (l : list Contract) : bool :=
  match l with
  | [] => false
  | x :: rest => contract_eqb x c || contract_in c rest
  end.

(** [str.lower()] on the ASCII range: the letters A to Z are lowered and
    every other character is left as it is, which is what Python does on
    the hexadecimal addresses of the registry. *)
Definition lower_ascii (a : ascii) : ascii :=
  let n := nat_of_ascii a in
  if (Nat.leb 65 n && Nat.leb n 90)%bool then ascii_of_nat (n + 32) else a.

Fixpoint lower (s : string) : string :=
  match s with
  | EmptyString => EmptyString
  | String a rest => String (lower_ascii a) (lower rest)
  end.

(** Truth value of a Python string: the empty string is falsy. *)
Definition str_truthy (s : string) : bool :=
  match s with
  | EmptyString => false
  | _ => true
  end.

(** Truth value of an optional string ([None] is falsy). *)
Definition opt_truthy (o : option string) : bool :=
  match o with
  | Some s => str_truthy s
  | None => false
  end.

(** The entry a preferred address designates. *)
Definition address_matches (p : string) (c : Contract) : bool :=
  String.eqb (lower (address c)) (lower p).

(** First loop of the ordering: append the first entry whose address equals
    the preferred one, ignoring case, then [break]. *)
Fixpoint preferred_first (registry : list Contract) (preferred_contract : string)
  : list Contract :=
  match registry with
  | [] => []
  | contract :: rest =>
      if address_matches preferred_contract contract
      then [contract]
      else preferred_first rest preferred_contract
  end.

(** Second loop: append every entry that is not yet in the list. *)
Fixpoint append_missing (registry : list Contract) (contract_list : list Contract)
  : list Contract :=
  match registry with
  | [] => contract_list
  | contract :: rest =>
      if contract_in contract contract_list
      then append_missing rest contract_list
      else append_missing rest (contract_list ++ [contract])
  end.

(** Lines 132-141 of [process_withdrawal], for any registry. *)
Definition contract_ordering (registry : list Contract)
  (preferred_contract : option string) : list Contract :=
  let contract_list :=
    match preferred_contract with
    | Some p => if str_truthy p then preferred_first registry p else []
    | None => []
    end in
  append_missing registry contract_list.

(** A registry as the data model has it: distinct entries, and no entry
    with an empty address. *)
Definition registry_wf (registry : list Contract) : Prop :=
  NoDup registry /\ Forall (fun c => address c <> EmptyString) registry.

(** ** Chain client, events and the dispatcher monad *)

Inductive OpKind : Type := MINT | TRANSFER.

(** The receipt fields the dispatcher reads. *)
Record Receipt : Type := mkReceipt {
  rc_status : Z;
  rc_blockNumber : Z;
  rc_gasUsed : Z
}.

(** A contract call together with the transaction dict handed to
    [build_transaction]. *)
Record TxRequest : Type := mkTx {
  tx_op : OpKind;
  tx_contract : string;
  tx_to : string;
  tx_amount : Z;
  tx_from : option string;
  tx_nonce : Z;
  tx_gas : Z;
  tx_gasPrice : Z;
  tx_chainId : Z
}.

(** [LocalAccount]: its [address] and [key.hex()]. *)
Record Account : Type := mkAccount {
  acct_address : string;
  acct_key : string
}.

(** The connected handle [Web3(Web3.HTTPProvider(url))]. *)
Inductive Web3 : Type := Web3HTTPProvider (url : string).

(** The module-level globals that [init_web3] assigns. *)
Record Globals : Type := mkGlobals {
  web3_instance : option Web3;
  admin_account : option Account;
  admin_private_key : option string;
  admin_address : option string
}.

(** The dict returned on success. *)
Record Outcome : Type := mkOutcome {
  success : bool;
  method : string;
  contract : string;
  contractAddress : string;
  txHash : string;
  blockNumber : Z;
  symbol : string;
  gasUsed : Z
}.

(** The lines written to the logger.  The two "Trying ..." lines carry the
    contract of the loop iteration that writes them. *)
Inductive LogMsg : Type :=
| LProcessing (amount : PyFloat.float) (user_wallet : string)
| LAttempt (index : nat) (c : Contract)
| LTryingMint (c : Contract) (token_symbol : string)
| LMintSuccess (tx_hash : string)
| LMintFailed (e : PyExc)
| LTryingTransfer (c : Contract) (token_symbol : string)
| LTransferSuccess (tx_hash : string)
| LTransferFailed (e : PyExc)
| LContractError (index : nat) (e : PyExc)
| LAllFailed
| LWithdrawalRequest (amount : PyFloat.float) (user_wallet : string)
| LWithdrawalSuccessful (tx_hash : string)
| LWithdrawalFailed (e : PyExc)
| LInit (line : string)
| LBalance (balance_wei : Z).

(** The calls made on the collaborators (web3 and eth_account). *)
Inductive Call : Type :=
| CContract (checksum_address : string)
| CSymbol (token : string)
| CDecimals (token : string)
| CGasPrice
| CGetTransactionCount (account : option string)
| CChainId
| CBuildTransaction (tx : TxRequest)
| CSignTransaction (tx : TxRequest) (key : option string)
| CSendRawTransaction (tx : TxRequest)
| CWaitForTransactionReceipt (tx_hash : string) (timeout : Z)
| CEnableHdwallet
| CFromMnemonic (phrase : string)
| CFromKey (key : string)
| CWeb3 (url : string)
| CIsConnected
| CGetBalance (account : option string).

Inductive Event : Type :=
| ELog (l : LogMsg)
| ECall (c : Call).

Definition History : Type := list Event.

(** The collaborators.  [is_address] and [to_checksum_address] are pure
    functions of the web3 library; every other answer may depend on all
    that happened before the call (so a nonce can move after a broadcast, a
    node can go away, and so on).  An answer is a value or an exception. *)
Record ChainClient : Type := mkChain {
  is_address : string -> bool;
  to_checksum_address : string -> Result string;
  eth_contract : History -> string -> Result unit;
  call_symbol : History -> string -> Result string;
  call_decimals : History -> string -> Result N;
  gas_price : History -> Result Z;
  get_transaction_count : History -> option string -> Result Z;
  chain_id : History -> Result Z;
  build_transaction : History -> TxRequest -> Result unit;
  sign_transaction : History -> TxRequest -> option string -> Result unit;
  send_raw_transaction : History -> TxRequest -> Result string;
  wait_for_transaction_receipt : History -> string -> Z -> Result Receipt;
  enable_unaudited_hdwallet_features : History -> Result unit;
  from_mnemonic : History -> string -> Result Account;
  from_key : History -> string -> Result Account;
  new_web3 : History -> string -> Result Web3;
  is_connected : History -> Result bool;
  get_balance : History -> option string -> Result Z
}.

(** A computation reads the history so far and yields a value or an
    exception together with the events it adds. *)
Definition M (A : Type) : Type := History -> Result A * list Event.

Definition ret {A} (a : A) : M A := fun _ => (Ok a, []).

Definition raise {A} (e : PyExc) : M A := fun _ => (Raise e, []).

Definition lift {A} (r : Result A) : M A := fun _ => (r, []).

Definition bind {A B} (m : M A) (f : A -> M B) : M B :=
  fun h =>
    match m h with
    | (Ok a, t1) => let (r, t2) := f a (h ++ t1) in (r, t1 ++ t2)
    | (Raise e, t1) => (Raise e, t1)
    end.

(** [try: m  except Exception as e: handler e]. *)
Definition try_except {A} (m : M A) (handler : PyExc -> M A) : M A :=
  fun h =>
    match m h with
    | (Ok a, t1) => (Ok a, t1)
    | (Raise e, t1) => let (r, t2) := handler e (h ++ t1) in (r, t1 ++ t2)
    end.

Definition log (l : LogMsg) : M unit := fun _ => (Ok tt, [ELog l]).

Definition call {A} (c : Call) (answer : History -> Result A) : M A :=
  fun h => (answer h, [ECall c]).

Declare Scope py_scope.
Delimit Scope py_scope with py.
Notation "x <- m ;; k" := (bind m (fun x => k))
  (at level 100, m at next level, right associativity) : py_scope.
Notation "m ;; k" := (bind m (fun _ => k))
  (at level 100, right associativity) : py_scope.
Open Scope py_scope.

Definition is_some {A} (o : option A) : bool :=
  match o with Some _ => true | None => false end.

(** [int(amount_requested * (10 ** token_decimals))]. *)
Definition amount_in_wei (amount_requested : PyFloat.float) (token_decimals : N)
  : Result Z :=
  match PyFloat.mul_int amount_requested (10 ^ Z.of_N token_decimals) with
  | Ok product => PyFloat.to_int product
  | Raise e => Raise e
  end.

(** [int(current_gas_price * 1.2)]. *)
Definition inflated_gas_price (current_gas_price : Z) : Result Z :=
  match PyFloat.of_int current_gas_price with
  | Ok g => PyFloat.to_int (PyFloat.mul g PyFloat.f1_2)
  | Raise e => Raise e
  end.

(** [enumerate(l)]. *)
Definition enumerate {A} (l : list A) : list (nat * A) :=
  combine (seq 0 (List.length l)) l.

(** What one loop iteration has resolved before its two attempts. *)
Record Ctx : Type := mkCtx {
  token_contract : string;
  token_symbol : string;
  token_decimals : N;
  ctx_amount_in_wei : Z;
  current_gas_price : Z;
  current_nonce : Z
}.

Section Dispatcher.

Variable chain : ChainClient.
Variable g : Globals.
Variable user_wallet : string.
Variable amount_requested : PyFloat.float.

(** Lines 155-160: the token metadata, with the defaults of the bare
    [except:]. *)
Definition resolve_metadata (token : string) : M (string * N) :=
  try_except
    (token_symbol <- call (CSymbol token) (fun h => call_symbol chain h token) ;;
     token_decimals <- call (CDecimals token) (fun h => call_decimals chain h token) ;;
     ret (token_symbol, token_decimals))
    (fun _ => ret ("TOKEN", 18%N)).

(** Lines 149-164: everything an iteration does before the mint attempt. *)
Definition prepare (contract_data : Contract) : M Ctx :=
  checksum <- lift (to_checksum_address chain (address contract_data)) ;;
  call (CContract checksum) (fun h => eth_contract chain h checksum) ;;
  meta <- resolve_metadata checksum ;;
  amount <- lift (amount_in_wei amount_requested (snd meta)) ;;
  gp <- call CGasPrice (gas_price chain) ;;
  nonce <- call (CGetTransactionCount (admin_address g))
             (fun h => get_transaction_count chain h (admin_address g)) ;;
  ret (mkCtx checksum (fst meta) (snd meta) amount gp nonce).

(** Build, sign, broadcast and wait: the common part of both attempts,
    from the evaluation of the call arguments to the receipt. *)
Definition submit (op : OpKind) (ctx : Ctx) (nonce gas : Z) : M (string * Receipt) :=
  to <- lift (to_checksum_address chain user_wallet) ;;
  gasPrice <- lift (inflated_gas_price (current_gas_price ctx)) ;;
  chainId <- call CChainId (chain_id chain) ;;
  let tx := mkTx op (token_contract ctx) to (ctx_amount_in_wei ctx)
              (admin_address g) nonce gas gasPrice chainId in
  call (CBuildTransaction tx) (fun h => build_transaction chain h tx) ;;
  call (CSignTransaction tx (admin_private_key g))
    (fun h => sign_transaction chain h tx (admin_private_key g)) ;;
  tx_hash <- call (CSendRawTransaction tx) (fun h => send_raw_transaction chain h tx) ;;
  receipt <- call (CWaitForTransactionReceipt tx_hash 120)
               (fun h => wait_for_transaction_receipt chain h tx_hash 120) ;;
  ret (tx_hash, receipt).

Definition outcome_of (method : string) (contract_data : Contract) (ctx : Ctx)
  (tx_hash : string) (receipt : Receipt) : Outcome :=
  mkOutcome true method (name contract_data) (address contract_data) tx_hash
    (rc_blockNumber receipt) (token_symbol ctx) (rc_gasUsed receipt).

(** Lines 167-199: the mint attempt.  [None] is "fall through". *)
Definition try_mint (contract_data : Contract) (ctx : Ctx) : M (option Outcome) :=
  try_except
    (log (LTryingMint contract_data (token_symbol ctx)) ;;
     sent <- submit MINT ctx (current_nonce ctx) 200000 ;;
     if (rc_status (snd sent) =? 1)%Z
     then
       log (LMintSuccess (fst sent)) ;;
       ret (Some (outcome_of "mint" contract_data ctx (fst sent) (snd sent)))
     else ret None)
    (fun mint_error => log (LMintFailed mint_error) ;; ret None).

(** Lines 202-236: the transfer attempt. *)
Definition try_transfer (contract_data : Contract) (ctx : Ctx) : M (option Outcome) :=
  try_except
    (log (LTryingTransfer contract_data (token_symbol ctx)) ;;
     new_nonce <- call (CGetTransactionCount (admin_address g))
                    (fun h => get_transaction_count chain h (admin_address g)) ;;
     sent <- submit TRANSFER ctx new_nonce 100000 ;;
     if (rc_status (snd sent) =? 1)%Z
     then
       log (LTransferSuccess (fst sent)) ;;
       ret (Some (outcome_of "transfer" contract_data ctx (fst sent) (snd sent)))
     else ret None)
    (fun transfer_error => log (LTransferFailed transfer_error) ;; ret None).

(** Lines 146-240: one iteration of the loop over [contract_list]. *)
Definition attempt_contract (index : nat) (contract_data : Contract)
  : M (option Outcome) :=
  log (LAttempt index contract_data) ;;
  try_except
    (ctx <- prepare contract_data ;;
     minted <- try_mint contract_data ctx ;;
     match minted with
     | Some result => ret (Some result)
     | None => try_transfer contract_data ctx
     end)
    (fun contract_error => log (LContractError index contract_error) ;; ret None).

(** The [for] loop: the first success returns. *)
Fixpoint dispatch_loop (contract_list : list (nat * Contract)) : M (option Outcome) :=
  match contract_list with
  | [] => ret None
  | (index, contract_data) :: rest =>
      r <- attempt_contract index contract_data ;;
      match r with
      | Some result => ret (Some result)
      | None => dispatch_loop rest
      end
  end.

Definition process_withdrawal (preferred_contract : option string) : M Outcome :=
  if negb (is_some (web3_instance g)) || negb (is_some (admin_account g))
  then raise (HTTPException 503 "Web3 not connected")
  else if negb (is_address chain user_wallet)
  then raise (ValueError "Invalid wallet address")
  else if PyFloat.le_zero amount_requested
  then raise (ValueError "Invalid amount")
  else
    let contract_list := contract_ordering CONTRACTS preferred_contract in
    log (LProcessing amount_requested user_wallet) ;;
    r <- dispatch_loop (enumerate contract_list) ;;
    match r with
    | Some result => ret result
    | None =>
        log LAllFailed ;;
        raise (HTTPException 500 "All withdrawal methods exhausted")
    end.

End Dispatcher.

(** ** The withdraw endpoint *)

(** The [amount] entry of the request body as [float(data.get("amount", 0))]
    sees it: missing, a value [float] accepts (given by the float it becomes)
    or a value [float] rejects (given by the exception it raises). *)
Inductive AmountField : Type :=
| AmountAbsent
| AmountValue (x : PyFloat.float)
| AmountRejected (e : PyExc).

(** The request body of [/api/engine/withdraw]. *)
Record WithdrawData : Type := mkData {
  walletAddress : option string;
  amount : AmountField;
  tokenAddress : option string;
  tokenSymbol : option string
}.

Definition float_of_amount (a : AmountField) : Result PyFloat.float :=
  match a with
  | AmountAbsent => Ok (S754_zero false)
  | AmountValue x => Ok x
  | AmountRejected e => Raise e
  end.

Definition withdraw_endpoint (chain : ChainClient) (g : Globals) (web3_ready : bool)
  (data : WithdrawData) : M Outcome :=
  if negb web3_ready
  then raise (HTTPException 503 "Backend not connected to blockchain")
  else
    amount_requested <- lift (float_of_amount (amount data)) ;;
    match walletAddress data with
    | None => raise (HTTPException 400 "Invalid withdrawal request")
    | Some user_wallet =>
        if negb (str_truthy user_wallet) || PyFloat.le_zero amount_requested
        then raise (HTTPException 400 "Invalid withdrawal request")
        else
          log (LWithdrawalRequest amount_requested user_wallet) ;;
          try_except
            (result <- process_withdrawal chain g user_wallet amount_requested
                         (tokenAddress data) ;;
             log (LWithdrawalSuccessful (txHash result)) ;;
             ret result)
            (fun error =>
               log (LWithdrawalFailed error) ;;
               raise (HTTPException 500 ("Withdrawal failed: " ++ str_exc error)%string))
    end.

(** The status of the HTTP response the framework sends: that of the
    [HTTPException] raised, 500 for any other exception that leaves the
    handler, 200 for a returned dict. *)
Definition response_status (r : Result Outcome) : Z :=
  match r with
  | Ok _ => 200
  | Raise (HTTPException status_code _) => status_code
  | Raise _ => 500
  end.

(** ** Initialisation *)

(** The environment settings read at import time. *)
Record Config : Type := mkConfig {
  ADMIN_SEED_PHRASE : string;
  ADMIN_PRIVATE_KEY : string;
  ALCHEMY_KEY : string
}.

(** The globals before [init_web3] runs. *)
Definition no_globals : Globals := mkGlobals None None None None.

(** The wallet of an account, as the three assignments after a derivation
    store it. *)
Definition with_account (g : Globals) (a : Account) (key : string) : Globals :=
  mkGlobals (web3_instance g) (Some a) (Some key) (Some (acct_address a)).

Definition with_web3 (g : Globals) (w : Web3) : Globals :=
  mkGlobals (Some w) (admin_account g) (admin_private_key g) (admin_address g).

(** Lines 42-73: the wallet.  [None] stands for [return False]. *)
Definition init_wallet (chain : ChainClient) (cfg : Config) : M (option Globals) :=
  if str_truthy (ADMIN_SEED_PHRASE cfg)
  then
    try_except
      (call CEnableHdwallet (enable_unaudited_hdwallet_features chain) ;;
       account <- call (CFromMnemonic (ADMIN_SEED_PHRASE cfg))
                    (fun h => from_mnemonic chain h (ADMIN_SEED_PHRASE cfg)) ;;
       log (LInit "Admin wallet DERIVED from seed phrase") ;;
       ret (Some (with_account no_globals account (acct_key account))))
      (fun e => log (LInit "Failed to derive from seed phrase") ;; ret None)
  else if str_truthy (ADMIN_PRIVATE_KEY cfg)
  then
    try_except
      (let private_key :=
         if String.prefix "0x" (ADMIN_PRIVATE_KEY cfg)
         then ADMIN_PRIVATE_KEY cfg
         else ("0x" ++ ADMIN_PRIVATE_KEY cfg)%string in
       account <- call (CFromKey private_key) (fun h => from_key chain h private_key) ;;
       log (LInit "Admin wallet loaded from private key") ;;
       ret (Some (with_account no_globals account private_key)))
      (fun e => log (LInit "Failed to load private key") ;; ret None)
  else
    log (LInit "No admin wallet configured") ;; ret None.

(** Lines 93-101: the balance check, which only logs.  [balance_eth < 0.01]
    compares the exact decimal with the double [0.01], which lies just above
    one hundredth, so the warning is written up to and including 10^16 wei. *)
Definition check_balance (chain : ChainClient) (g : Globals) : M unit :=
  try_except
    (balance_wei <- call (CGetBalance (admin_address g))
                      (fun h => get_balance chain h (admin_address g)) ;;
     log (LBalance balance_wei) ;;
     if (balance_wei <=? 10 ^ 16)%Z
     then log (LInit "Low ETH balance for gas fees")
     else ret tt)
    (fun e => log (LInit "Could not check balance")).

Fixpoint log_contracts (l : list Contract) : M unit :=
  match l with
  | [] => ret tt
  | c :: rest => log (LInit (name c ++ ": " ++ address c)%string) ;; log_contracts rest
  end.

(** [init_web3]: the value returned and the globals it leaves.  The single
    [try] of lines 80-107 is split at the assignment of [web3_instance], with
    the same handler on both parts. *)
Definition init_web3 (chain : ChainClient) (cfg : Config) : M (bool * Globals) :=
  wallet <- init_wallet chain cfg ;;
  match wallet with
  | None => ret (false, no_globals)
  | Some g1 =>
      if negb (str_truthy (ALCHEMY_KEY cfg))
      then log (LInit "ALCHEMY_API_KEY not set") ;; ret (false, g1)
      else
        let url := ("https://eth-mainnet.g.alchemy.com/v2/" ++ ALCHEMY_KEY cfg)%string in
        created <- try_except
                     (w <- call (CWeb3 url) (fun h => new_web3 chain h url) ;; ret (Some w))
                     (fun error => log (LInit "Web3 init error") ;; ret None) ;;
        match created with
        | None => ret (false, g1)
        | Some w =>
            let g2 := with_web3 g1 w in
            try_except
              (connected <- call CIsConnected (is_connected chain) ;;
               if negb connected
               then log (LInit "Failed to connect to Ethereum") ;; ret (false, g2)
               else
                 log (LInit "Connected to Ethereum Mainnet") ;;
                 log_contracts CONTRACTS ;;
                 check_balance chain g2 ;;
                 ret (true, g2))
              (fun error => log (LInit "Web3 init error") ;; ret (false, g2))
        end
  end.

(** ** Observations on a trace *)

(** The attempts, in the order they were started. *)
Fixpoint attempts (t : list Event) : list (Contract * OpKind) :=
  match t with
  | [] => []
  | ELog (LTryingMint c _) :: rest => (c, MINT) :: attempts rest
  | ELog (LTryingTransfer c _) :: rest => (c, TRANSFER) :: attempts rest
  | _ :: rest => attempts rest
  end.

(** The calls made on the collaborators. *)
Fixpoint calls (t : list Event) : list Call :=
  match t with
  | [] => []
  | ECall c :: rest => c :: calls rest
  | ELog _ :: rest => calls rest
  end.

(** The transactions handed to [send_raw_transaction]. *)
Fixpoint broadcasts (t : list Event) : list TxRequest :=
  match t with
  | [] => []
  | ECall (CSendRawTransaction tx) :: rest => tx :: broadcasts rest
  | _ :: rest => broadcasts rest
  end.

(** The transactions handed to [build_transaction]. *)
Fixpoint built (t : list Event) : list TxRequest :=
  match t with
  | [] => []
  | ECall (CBuildTransaction tx) :: rest => tx :: built rest
  | _ :: rest => built rest
  end.

(** ** Scenarios *)

Section Scenarios.

Variable chain : ChainClient.
Variable g : Globals.
Variable user_wallet : string.
Variable amount_requested : PyFloat.float.

(** The signer and the connection are there. *)
Definition signer_ready : bool :=
  is_some (web3_instance g) && is_some (admin_account g).

(** The iteration on [c] always gets as far as its attempts. *)
Definition reachable (c : Contract) : Prop :=
  forall h, exists ctx t0, prepare chain g amount_requested c h = (Ok ctx, t0).


(** Whenever the dispatcher tries MINT on [c], it succeeds. *)
Definition mint_succeeds (c : Contract) : Prop :=
  forall h ctx t0,
    prepare chain g amount_requested c h = (Ok ctx, t0) ->
    exists o, fst (try_mint chain g user_wallet c ctx (h ++ t0)) = Ok (Some o).



End Scenarios.

(** ** Exact base units *)

(** Two binary fractions [m1 * 2^e1] and [m2 * 2^e2] with the same value. *)
Definition same_value (m1 e1 m2 e2 : Z) : Prop :=
  m1 * 2 ^ (e1 - Z.min e1 e2) = m2 * 2 ^ (e2 - Z.min e1 e2).

(** The amount times [10^decimals] in exact arithmetic, truncated to an
    integer: the conversion as the specification words it. *)
Definition exact_base_units (amount_requested : PyFloat.float) (decimals : N)
  : option Z :=
  match amount_requested with
  | S754_zero _ => Some 0
  | S754_finite s m e =>
      Some (cond_Zopp s (Z.shiftl (Zpos m * 10 ^ Z.of_N decimals) e))
  | _ => None
  end.

(** The exact product of the amount and [10^decimals] is itself a double
    (a canonical mantissa and exponent with the same value). *)
Definition product_is_double (amount_requested : PyFloat.float) (decimals : N) : Prop :=
  match amount_requested with
  | S754_zero _ => True
  | S754_finite _ m e =>
      exists mz ez,
        bounded PyFloat.prec PyFloat.emax mz ez = true
        /\ same_value (Zpos m * 10 ^ Z.of_N decimals) e (Zpos mz) ez
  | _ => False
  end.

(** [float(10 ** d)] is a normal double that holds [10^d] exactly. *)
Definition pow10_exact (d : N) : bool :=
  match binary_normalize PyFloat.prec PyFloat.emax (10 ^ Z.of_N d) 0 false with
  | S754_finite false my ey =>
      bounded PyFloat.prec PyFloat.emax my ey
      && (Zpos (digits2_pos my) =? 53)%Z
      && (-52 <=? ey)%Z
      && (Zpos my * 2 ^ (ey + 52) =? 10 ^ Z.of_N d * 2 ^ 52)%Z
  | _ => false
  end.

(** ** Failure conditions *)

(** Both attempts on a contract, in the order of the loop body. *)
Definition both (c : Contract) : list (Contract * OpKind) := [(c, MINT); (c, TRANSFER)].

(** The context of an iteration with another nonce in it. *)
Definition with_nonce (ctx : Ctx) (nonce : Z) : Ctx :=
  mkCtx (token_contract ctx) (token_symbol ctx) (token_decimals ctx)
    (ctx_amount_in_wei ctx) (current_gas_price ctx) nonce.

(** The metadata lookup fails: [symbol()] raises, or [decimals()] raises
    after [symbol()] has answered. *)
Definition metadata_fails (chain : ChainClient) (token : string) (h : History) : Prop :=
  (exists e, call_symbol chain h token = Raise e)
  \/ (exists s e, call_symbol chain h token = Ok s
                  /\ call_decimals chain (h ++ [ECall (CSymbol token)]) token = Raise e).

(** The derivation of the wallet from the seed phrase fails: enabling the
    HD wallet features raises, or [Account.from_mnemonic] does. *)
Definition derivation_fails (chain : ChainClient) (phrase : string) (h : History) : Prop :=
  (exists e, enable_unaudited_hdwallet_features chain h = Raise e)
  \/ (exists e, enable_unaudited_hdwallet_features chain h = Ok tt
                /\ from_mnemonic chain (h ++ [ECall CEnableHdwallet]) phrase = Raise e).


(** ** Example collaborators *)

Definition is_hex_digit (a : ascii) : bool :=
  let n := nat_of_ascii a in
  ((Nat.leb 48 n && Nat.leb n 57) || (Nat.leb 65 n && Nat.leb n 70)
   || (Nat.leb 97 n && Nat.leb n 102))%bool.

Fixpoint all_hex (s : string) : bool :=
  match s with
  | EmptyString => true
  | String a rest => is_hex_digit a && all_hex rest
  end.

(** A stand-in for [Web3.is_address] in the examples: [0x] and forty
    hexadecimal digits. *)
Definition hex_address (s : string) : bool :=
  match s with
  | String "0" (String "x" rest) => (String.length rest =? 40)%nat && all_hex rest
  | _ => false
  end.

(** The hash the example node gives a transaction: its operation and its
    contract. *)
Definition tx_hash_of (tx : TxRequest) : string :=
  ((match tx_op tx with MINT => "mint@" | TRANSFER => "transfer@" end)
   ++ tx_contract tx)%string.

Definition example_account : Account :=
  mkAccount "0xf39Fd6e51aad88F6F4ce6aB8827279cffFb92266"
    "0xac0974bec39a17e36ba4a6b4d238ff944bacb478cbed5efcae784d7bf4f2ff80".

(** An example node.  Every transaction is accepted and mined; the receipt
    reports success for the hashes listed in [mined] and a revert for the
    others.  The signer's transaction count starts at 7 and moves with every
    broadcast.  [metadata_ok] and [mnemonic_ok] switch the token metadata
    and the derivation from a seed phrase on and off. *)
Definition example_chain (mined : list string) (metadata_ok mnemonic_ok : bool)
  : ChainClient :=
  mkChain
    hex_address
    (fun s => if hex_address s then Ok s else Raise (ValueError "not an address"))
    (fun _ _ => Ok tt)
    (fun _ _ => if metadata_ok then Ok "USDC" else Raise (Web3Error "execution reverted"))
    (fun _ _ => if metadata_ok then Ok 6%N else Raise (Web3Error "execution reverted"))
    (fun _ => Ok 30000000000)
    (fun h _ => Ok (7 + Z.of_nat (List.length (broadcasts h))))
    (fun _ => Ok 1)
    (fun _ _ => Ok tt)
    (fun _ _ _ => Ok tt)
    (fun _ tx => Ok (tx_hash_of tx))
    (fun _ tx_hash _ =>
       Ok (mkReceipt (if existsb (String.eqb tx_hash) mined then 1 else 0) 19000000 52000))
    (fun _ => Ok tt)
    (fun _ _ => if mnemonic_ok then Ok example_account
                else Raise (ValueError "mnemonic is not valid"))
    (fun _ key => Ok (mkAccount (acct_address example_account) key))
    (fun _ url => Ok (Web3HTTPProvider url))
    (fun _ => Ok true)
    (fun _ _ => Ok (5 * 10 ^ 17)).

(** The globals after a successful [init_web3] in the examples. *)
Definition example_globals : Globals :=
  mkGlobals (Some (Web3HTTPProvider "https://eth-mainnet.g.alchemy.com/v2/key"))
    (Some example_account) (Some (acct_key example_account))
    (Some (acct_address example_account)).

Definition example_wallet : string := "0x70997970C51812dc3A010C7d01b50e0d17dc79C8".

Definition example_config : Config :=
  mkConfig "exotic estate dinosaur entry century cause inflict balance example stone twin expect"
    "0xac0974bec39a17e36ba4a6b4d238ff944bacb478cbed5efcae784d7bf4f2ff80" "key".

Definition Primary : Contract := mkContract 1 "Primary" "0x29983BE497D4c1D39Aa80D20Cf74173ae81D2af5".
Definition Secondary : Contract := mkContract 2 "Secondary" "0x0b8Add0d32eFaF79E6DB4C58CcA61D6eFBCcAa3D".
Definition Tertiary : Contract := mkContract 3 "Tertiary" "0xf97A395850304b8ec9B8f9c80A17674886612065".

(** The receipts of the example in which only the transfer on the third
    contract is mined successfully. *)
Definition third_only : list string :=
  ["transfer@0xf97A395850304b8ec9B8f9c80A17674886612065"].

(** The first iteration of that example: what it resolved, and the events of
    its preparation and of its mint attempt. *)
Definition example_ctx : Ctx :=
  mkCtx (address Primary) "USDC" 6%N 1500000 30000000000 7.

Definition example_prepare_trace : list Event :=
  Eval vm_compute in
    snd (prepare (example_chain third_only true true) example_globals PyFloat.f1_5
           Primary [ELog (LAttempt 0 Primary)]).

Definition example_mint_trace : list Event :=
  Eval vm_compute in
    snd (try_mint (example_chain third_only true true) example_globals example_wallet
           Primary example_ctx ([ELog (LAttempt 0 Primary)] ++ example_prepare_trace)).

(** ** Sessions *)

(** A value of the [sessions] dict: the keys [start] and [active]. *)
Record Session : Type := mkSession {
  s_start : PyFloat.float;
  s_active : bool
}.

(** The [sessions] dict, keyed by wallet address, in insertion order. *)
Definition Sessions : Type := list (string * Session).

(** [sessions.get(k)], that is [sessions[k]] when [k in sessions]. *)
Fixpoint sessions_get (k : string) (sessions : Sessions) : option Session :=
  match sessions with
  | [] => None
  | (k', v) :: rest => if String.eqb k' k then Some v else sessions_get k rest
  end.

(** [sessions[k] = v]: an existing key keeps its place, a new one goes last. *)
Fixpoint sessions_set (k : string) (v : Session) (sessions : Sessions) : Sessions :=
  match sessions with
  | [] => [(k, v)]
  | (k', v') :: rest =>
      if String.eqb k' k then (k, v) :: rest else (k', v') :: sessions_set k v rest
  end.

(** The lower-cased [walletAddress] entry of the body, the empty string
    standing in for an absent entry. *)
Definition wallet_key (walletAddress : option string) : string :=
  lower (match walletAddress with Some s => s | None => EmptyString end).

(** [POST /api/engine/start]: the dict after the call and the
    [session_id] returned ([now] is [datetime.now().timestamp()]). *)
Definition start (walletAddress : option string) (now : PyFloat.float)
  (sessions : Sessions) : Sessions * (bool * string) :=
  let user_wallet := wallet_key walletAddress in
  (sessions_set user_wallet (mkSession now true) sessions, (true, user_wallet)).

(** [POST /api/engine/stop]: the dict after the call and [success]. *)
Definition stop (walletAddress : option string) (sessions : Sessions)
  : Sessions * bool :=
  let user_wallet := wallet_key walletAddress in
  match sessions_get user_wallet sessions with
  | Some s => (sessions_set user_wallet (mkSession (s_start s) false) sessions, true)
  | None => (sessions, true)
  end.

(** ** Status endpoints *)

(** ["seed_phrase" if ADMIN_SEED_PHRASE else "private_key" if
    ADMIN_PRIVATE_KEY else "none"]. *)
Definition wallet_source (cfg : Config) : string :=
  if str_truthy (ADMIN_SEED_PHRASE cfg) then "seed_phrase"
  else if str_truthy (ADMIN_PRIVATE_KEY cfg) then "private_key"
  else "none".

(** The dict returned by [GET /]. *)
Record RootResponse : Type := mkRoot {
  root_service : string;
  root_version : string;
  root_status : string;
  root_web3_ready : bool;
  root_admin_wallet : option string;
  root_admin_eth_balance : option PyFloat.float;
  root_wallet_source : string;
  root_contracts : list Contract;
  root_total : nat;
  root_network : string;
  root_chain_id : Z
}.

(** [GET /].  [from_wei] is [float(web3_instance.from_wei(bal, 'ether'))],
    a function of the web3 library that may raise. *)
Definition root (chain : ChainClient) (from_wei : Z -> Result PyFloat.float)
  (cfg : Config) (g : Globals) (web3_ready : bool) : M RootResponse :=
  admin_bal <-
    (if opt_truthy (admin_address g) && is_some (web3_instance g)
     then
       try_except
         (bal <- call (CGetBalance (admin_address g))
                   (fun h => get_balance chain h (admin_address g)) ;;
          eth <- lift (from_wei bal) ;;
          ret (Some eth))
         (fun _ => ret None)
     else ret None) ;;
  ret (mkRoot "Ultra Backend V12" "12.0.0-seed-phrase" "online" web3_ready
         (admin_address g) admin_bal (wallet_source cfg) CONTRACTS
         (List.length CONTRACTS) "Ethereum Mainnet" 1).

(** The dict returned by [GET /api/health]. *)
Record HealthResponse : Type := mkHealth {
  web3_connected : bool;
  admin_configured : bool;
  health_wallet_source : string;
  health_contracts : list Contract;
  contract_count : nat
}.

(** [GET /api/health]. *)
Definition health (chain : ChainClient) (cfg : Config) (g : Globals)
  : M HealthResponse :=
  connected <-
    (match web3_instance g with
     | Some _ => call CIsConnected (is_connected chain)
     | None => ret false
     end) ;;
  ret (mkHealth connected (is_some (admin_account g)) (wallet_source cfg) CONTRACTS 3).

(** ** Further conditions *)

(** The chain client with another answer to [get_balance]. *)
Definition with_get_balance (chain : ChainClient)
  (balance : History -> option string -> Result Z) : ChainClient :=
  mkChain (is_address chain) (to_checksum_address chain) (eth_contract chain)
    (call_symbol chain) (call_decimals chain) (gas_price chain)
    (get_transaction_count chain) (chain_id chain) (build_transaction chain)
    (sign_transaction chain) (send_raw_transaction chain)
    (wait_for_transaction_receipt chain) (enable_unaudited_hdwallet_features chain)
    (from_mnemonic chain) (from_key chain) (new_web3 chain) (is_connected chain)
    balance.

(** The gas limit each operation is sent with. *)
Definition gas_limit (op : OpKind) : Z :=
  match op with MINT => 200000 | TRANSFER => 100000 end.

(** A transaction was built, signed with the admin key and only then
    broadcast, in three consecutive calls. *)
Definition signed_then_sent (g : Globals) (t : list Event) (tx : TxRequest) : Prop :=
  exists pre post,
    t = pre ++ [ECall (CBuildTransaction tx);
                ECall (CSignTransaction tx (admin_private_key g));
                ECall (CSendRawTransaction tx)] ++ post.

(** The iteration on a contract can never get as far as its attempts. *)
Definition never_prepared (chain : ChainClient) (g : Globals)
  (amount_requested : PyFloat.float) : Prop :=
  forall c h, exists e t, prepare chain g amount_requested c h = (Raise e, t).

(** An example node whose gas price cannot be read. *)
Definition no_gas_price_chain : ChainClient :=
  mkChain hex_address
    (fun s => if hex_address s then Ok s else Raise (ValueError "not an address"))
    (fun _ _ => Ok tt) (fun _ _ => Ok "USDC") (fun _ _ => Ok 6%N)
    (fun _ => Raise (Web3Error "connection refused"))
    (fun _ _ => Ok 7) (fun _ => Ok 1) (fun _ _ => Ok tt) (fun _ _ _ => Ok tt)
    (fun _ tx => Ok (tx_hash_of tx))
    (fun _ _ _ => Ok (mkReceipt 1 19000000 52000))
    (fun _ => Ok tt) (fun _ _ => Ok example_account)
    (fun _ key => Ok (mkAccount (acct_address example_account) key))
    (fun _ url => Ok (Web3HTTPProvider url)) (fun _ => Ok false)
    (fun _ _ => Raise (Web3Error "connection refused")).

(** What holds of a transaction sent for a contract: it pays the requested
    wallet from the admin address, with the gas limit of its operation, on
    the contract's checksummed address. *)
Definition proper_tx (chain : ChainClient) (g : Globals) (user_wallet : string)
  (c : Contract) (tx : TxRequest) : Prop :=
  to_checksum_address chain user_wallet = Ok (tx_to tx)
  /\ tx_from tx = admin_address g
  /\ tx_gas tx = gas_limit (tx_op tx)
  /\ to_checksum_address chain (address c) = Ok (tx_contract tx).

(** What the metadata lookup of a token gives at a point of the run: the
    answers of [symbol()] and [decimals()] at that point, or TOKEN and 18
    when the lookup fails there. *)
Definition metadata_answer (chain : ChainClient) (token : string) (h : History)
  (symbol : string) (decimals : N) : Prop :=
  (call_symbol chain h token = Ok symbol
   /\ call_decimals chain (h ++ [ECall (CSymbol token)]) token = Ok decimals)
  \/ (metadata_fails chain token h /\ symbol = "TOKEN" /\ decimals = 18%N).

(** No iteration of the loop starts within a stretch of the trace. *)
Definition no_attempt_log (t : list Event) : Prop :=
  forall index c, ~ In (ELog (LAttempt index c)) t.

(** A transaction of the trace [t] of a run started at history [h] was built
    in an iteration on the contract [c]: the iteration starts, instantiates
    the contract at the transaction's address, looks the metadata up, reads
    the gas price and, before any other iteration starts, builds the
    transaction.  The amount of the transaction is the conversion of the
    requested amount with the decimals that lookup gave, and its gas price
    the inflation of the gas price read in that iteration. *)
Definition built_in_iteration (chain : ChainClient) (amount_requested : PyFloat.float)
  (h : History) (t : list Event) (c : Contract) (tx : TxRequest) : Prop :=
  exists index pre tm mid post symbol decimals gp,
    t = pre ++ [ELog (LAttempt index c); ECall (CContract (tx_contract tx))]
            ++ tm ++ [ECall CGasPrice] ++ mid ++ [ECall (CBuildTransaction tx)] ++ post
    /\ no_attempt_log (tm ++ mid)
    /\ resolve_metadata chain (tx_contract tx)
         (h ++ pre ++ [ELog (LAttempt index c); ECall (CContract (tx_contract tx))])
       = (Ok (symbol, decimals), tm)
    /\ metadata_answer chain (tx_contract tx)
         (h ++ pre ++ [ELog (LAttempt index c); ECall (CContract (tx_contract tx))])
         symbol decimals
    /\ amount_in_wei amount_requested decimals = Ok (tx_amount tx)
    /\ gas_price chain
         (h ++ pre ++ [ELog (LAttempt index c); ECall (CContract (tx_contract tx))] ++ tm)
       = Ok gp
    /\ inflated_gas_price gp = Ok (tx_gasPrice tx).

(** An outcome is backed by a transaction: the node answered the broadcast
    of the transaction with the hash reported, and the wait for that hash
    with a receipt of status 1 whose block and gas are the ones reported. *)
Definition confirmed_by (chain : ChainClient) (o : Outcome) (tx : TxRequest) : Prop :=
  exists h1 h2 receipt,
    send_raw_transaction chain h1 tx = Ok (txHash o)
    /\ wait_for_transaction_receipt chain h2 (txHash o) 120 = Ok receipt
    /\ rc_status receipt = 1
    /\ blockNumber o = rc_blockNumber receipt
    /\ gasUsed o = rc_gasUsed receipt
    /\ method o = match tx_op tx with MINT => "mint" | TRANSFER => "transfer" end.

(** The run of the example in which only the transfer on the third contract
    is mined successfully, and the transaction that succeeds in it. *)
Definition example_run : Result Outcome * list Event :=
  Eval vm_compute in
    process_withdrawal (example_chain third_only true true) example_globals
      example_wallet PyFloat.f1_5 None [].

Definition example_transfer_tx : TxRequest :=
  mkTx TRANSFER (address Tertiary) example_wallet 1500000
    (Some (acct_address example_account)) 12 100000 36000000000 1.

(** A configuration with a private key only, written without [0x]. *)
Definition key_only_config : Config :=
  mkConfig EmptyString "ac0974bec39a17e36ba4a6b4d238ff944bacb478cbed5efcae784d7bf4f2ff80"
    "key".

(** * Properties *)

(** Case analysis on the innermost answer a computation waits for. *)
Ltac inner_destruct :=
  match goal with
  | |- context [match ?x with _ => _ end] =>
      lazymatch x with
      | context [match _ with _ => _ end] => fail
      | _ => destruct x eqn:?
      end
  end.

Ltac run_all :=
  repeat (cbn -[Z.eqb PyFloat.mul PyFloat.of_int PyFloat.to_int
                inflated_gas_price amount_in_wei] in *; inner_destruct).

Ltac unfold_monad :=
  unfold try_except, bind, call, log, lift, ret, raise.

(** ** The conversion to base units *)

Lemma digits2_pos_size (p : positive) : digits2_pos p = Pos.size p.
Proof. induction p; simpl; congruence. Qed.

Lemma digits2_upper (p : positive) : Zpos p < 2 ^ Zpos (digits2_pos p).
Proof.
  rewrite digits2_pos_size. pose proof (Pos.size_gt p) as H.
  apply Pos2Z.pos_lt_pos in H. rewrite Pos2Z.inj_pow in H. exact H.
Qed.

Lemma digits2_lower (p : positive) : 2 ^ (Zpos (digits2_pos p) - 1) <= Zpos p.
Proof.
  rewrite digits2_pos_size. pose proof (Pos.size_le p) as H.
  apply Pos2Z.pos_le_pos in H. rewrite Pos2Z.inj_pow in H.
  replace (Zpos (Pos.size p)) with (Z.succ (Zpos (Pos.size p) - 1)) in H by lia.
  rewrite Z.pow_succ_r in H by lia. change (Zpos p~0) with (2 * Zpos p) in H. lia.
Qed.

Lemma digits2_log2 (p : positive) : Zpos (digits2_pos p) = Z.log2 (Zpos p) + 1.
Proof.
  assert (H : Z.log2 (Zpos p) = Zpos (digits2_pos p) - 1); [|rewrite H; ring].
  apply Z.log2_unique; [pose proof (Pos2Z.is_pos (digits2_pos p)); lia|].
  pose proof (digits2_lower p) as Hl. pose proof (digits2_upper p) as Hu.
  replace (Z.succ (Zpos (digits2_pos p) - 1)) with (Zpos (digits2_pos p)) by ring.
  split; assumption.
Qed.

Lemma digits2_mul_pow2 (m r : positive) (k : Z) :
  0 <= k -> Zpos r = Zpos m * 2 ^ k ->
  Zpos (digits2_pos r) = Zpos (digits2_pos m) + k.
Proof.
  intros Hk E. rewrite !digits2_log2, E, Z.log2_mul_pow2 by lia. lia.
Qed.

Lemma shr_1_even (m : positive) :
  shr_1 (Build_shr_record (Zpos m~0) false false) = Build_shr_record (Zpos m) false false.
Proof. reflexivity. Qed.

Lemma iter_shr_exact (p m : positive) :
  iter_pos shr_1 p (Build_shr_record (Zpos m * 2 ^ Zpos p) false false)
  = Build_shr_record (Zpos m) false false.
Proof.
  revert m. induction p as [p IH|p IH|]; intros m.
  - cbn [iter_pos].
    replace (Zpos m * 2 ^ Zpos p~1) with (Zpos ((m * 2 ^ p * 2 ^ p)~0)).
    + rewrite shr_1_even.
      replace (Zpos (m * 2 ^ p * 2 ^ p)) with (Zpos (m * 2 ^ p) * 2 ^ Zpos p)
        by (rewrite !Pos2Z.inj_mul, !Pos2Z.inj_pow; reflexivity).
      rewrite IH.
      replace (Zpos (m * 2 ^ p)) with (Zpos m * 2 ^ Zpos p)
        by (rewrite !Pos2Z.inj_mul, !Pos2Z.inj_pow; reflexivity).
      apply IH.
    + change (Zpos (m * 2 ^ p * 2 ^ p)~0) with (2 * Zpos (m * 2 ^ p * 2 ^ p)).
      rewrite !Pos2Z.inj_mul, !Pos2Z.inj_pow.
      change (Zpos p~1) with (2 * Zpos p + 1).
      rewrite Z.pow_add_r, Z.pow_mul_r, Z.pow_2_r by lia.
      change (Zpos 2) with 2.
      replace ((2 * 2) ^ Zpos p) with (2 ^ Zpos p * 2 ^ Zpos p)
        by (rewrite <- Z.pow_mul_l; reflexivity).
      ring.
  - cbn [iter_pos].
    replace (Zpos m * 2 ^ Zpos p~0) with (Zpos (m * 2 ^ p) * 2 ^ Zpos p).
    + rewrite IH.
      replace (Zpos (m * 2 ^ p)) with (Zpos m * 2 ^ Zpos p)
        by (rewrite !Pos2Z.inj_mul, !Pos2Z.inj_pow; reflexivity).
      apply IH.
    + rewrite !Pos2Z.inj_mul, !Pos2Z.inj_pow.
      change (Zpos p~0) with (2 * Zpos p).
      rewrite Z.pow_mul_r, Z.pow_2_r by lia.
      change (Zpos 2) with 2.
      replace ((2 * 2) ^ Zpos p) with (2 ^ Zpos p * 2 ^ Zpos p)
        by (rewrite <- Z.pow_mul_l; reflexivity).
      ring.
  - cbn [iter_pos]. change (Zpos m * 2 ^ 1) with (Zpos m * 2).
    rewrite Z.mul_comm. apply shr_1_even.
Qed.

(** A product that is a double is left unchanged by the rounding. *)
Lemma binary_round_aux_exact (s : bool) (P mz : positive) (e ez : Z) :
  bounded PyFloat.prec PyFloat.emax mz ez = true ->
  e <= ez ->
  Zpos P = Zpos mz * 2 ^ (ez - e) ->
  binary_round_aux PyFloat.prec PyFloat.emax s (Zpos P) e loc_Exact = S754_finite s mz ez.
Proof.
  intros Hb Hle EP.
  apply andb_true_iff in Hb. destruct Hb as [Hc Hmax].
  unfold canonical_mantissa in Hc. apply Z.eqb_eq in Hc.
  assert (Hd : Zpos (digits2_pos P) + e = Zpos (digits2_pos mz) + ez).
  { rewrite (digits2_mul_pow2 mz P (ez - e)) by (lia || assumption). lia. }
  unfold binary_round_aux, shr_fexp. cbn [Zdigits2 shr_record_of_loc].
  rewrite Hd, Hc.
  destruct (ez - e) as [|p|p] eqn:En; [| |lia].
  - assert (e = ez) by lia. subst e. rewrite Z.mul_1_r in EP. inversion EP; subst P.
    cbn [shr shr_m loc_of_shr_record round_nearest_even Zdigits2 shr_record_of_loc].
    rewrite Hc, Z.sub_diag. cbn [shr shr_m]. rewrite Hmax. reflexivity.
  - cbn [shr]. rewrite EP, iter_shr_exact.
    cbn [shr_m loc_of_shr_record round_nearest_even Zdigits2 shr_record_of_loc].
    replace (e + Zpos p) with ez by lia.
    rewrite Hc, Z.sub_diag. cbn [shr shr_m]. rewrite Hmax. reflexivity.
Qed.

Lemma same_value_shiftl (m1 e1 m2 e2 : Z) :
  same_value m1 e1 m2 e2 -> Z.shiftl m1 e1 = Z.shiftl m2 e2.
Proof.
  unfold same_value. set (k := Z.min e1 e2). intros E.
  replace e1 with ((e1 - k) + k) at 1 by lia.
  replace e2 with ((e2 - k) + k) at 1 by lia.
  rewrite <- !Z.shiftl_shiftl by lia.
  rewrite !Z.shiftl_mul_pow2 with (n := e1 - k) by lia.
  rewrite !Z.shiftl_mul_pow2 with (n := e2 - k) by lia.
  now rewrite E.
Qed.

Lemma pow10_exact_upto_22 (d : N) : (d <= 22)%N -> pow10_exact d = true.
Proof.
  intros Hd.
  assert (H : forallb pow10_exact (map N.of_nat (seq 0 23)) = true)
    by (vm_compute; reflexivity).
  rewrite forallb_forall in H. apply H.
  apply in_map_iff. exists (N.to_nat d). split; [apply Nnat.N2Nat.id|].
  apply in_seq. lia.
Qed.

Lemma of_int_pow10 (d : N) :
  (d <= 22)%N ->
  exists my ey,
    PyFloat.of_int (10 ^ Z.of_N d) = Ok (S754_finite false my ey)
    /\ 2 ^ 52 <= Zpos my
    /\ -52 <= ey
    /\ Zpos my * 2 ^ (ey + 52) = 10 ^ Z.of_N d * 2 ^ 52.
Proof.
  intros Hd. pose proof (pow10_exact_upto_22 d Hd) as H.
  unfold pow10_exact in H. unfold PyFloat.of_int.
  destruct (binary_normalize PyFloat.prec PyFloat.emax (10 ^ Z.of_N d) 0 false)
    as [| | |[|] my ey]; try discriminate.
  apply andb_true_iff in H. destruct H as [H H4].
  apply andb_true_iff in H. destruct H as [H H3].
  apply andb_true_iff in H. destruct H as [H1 H2].
  exists my, ey. split; [reflexivity|].
  apply Z.eqb_eq in H2, H4. apply Z.leb_le in H3.
  split; [|split; assumption].
  pose proof (digits2_lower my) as Hl. rewrite H2 in Hl. exact Hl.
Qed.

Lemma bounded_mantissa (mz : positive) (ez : Z) :
  bounded PyFloat.prec PyFloat.emax mz ez = true -> Zpos mz < 2 ^ 53.
Proof.
  intros Hb. apply andb_true_iff in Hb. destruct Hb as [Hc _].
  unfold canonical_mantissa, fexp, PyFloat.prec in Hc. apply Z.eqb_eq in Hc.
  pose proof (digits2_upper mz) as Hu.
  assert (Hd : Zpos (digits2_pos mz) <= 53) by lia.
  eapply Z.lt_le_trans; [exact Hu|]. apply Z.pow_le_mono_r; lia.
Qed.

(** The two mantissas of an exact product, brought to the exponent of the
    double that holds it. *)
Lemma product_alignment (mx my mz : positive) (ex ey ez T : Z) :
  2 ^ 52 <= Zpos my -> -52 <= ey ->
  Zpos my * 2 ^ (ey + 52) = T * 2 ^ 52 ->
  Zpos mz < 2 ^ 53 ->
  same_value (Zpos mx * T) ex (Zpos mz) ez ->
  ex + ey <= ez /\ Zpos (mx * my) = Zpos mz * 2 ^ (ez - (ex + ey)).
Proof.
  intros Hmy Hey Ey Hmz Hv. unfold same_value in Hv.
  set (k := Z.min ex ez) in *.
  set (A := ey + 52 + (ex - k)). set (B := ez - k + 52).
  assert (Hk1 : 0 <= ex - k) by (unfold k; lia).
  assert (Hk2 : 0 <= ez - k) by (unfold k; lia).
  assert (HA : 0 <= A) by (unfold A; lia).
  assert (HB : 0 <= B) by (unfold B; lia).
  assert (E : Zpos mx * Zpos my * 2 ^ A = Zpos mz * 2 ^ B).
  { unfold A, B.
    rewrite (Z.pow_add_r 2 (ey + 52) (ex - k)), (Z.pow_add_r 2 (ez - k) 52) by lia.
    transitivity (Zpos mx * (Zpos my * 2 ^ (ey + 52)) * 2 ^ (ex - k)); [ring|].
    rewrite Ey.
    transitivity (Zpos mx * T * 2 ^ (ex - k) * 2 ^ 52); [ring|].
    rewrite Hv. ring. }
  assert (Hdiff : B - A = ez - (ex + ey)) by (unfold A, B; lia).
  assert (Hpos : forall n, 0 < 2 ^ n \/ n < 0).
  { intros n. destruct (Z_lt_le_dec n 0); [now right | left; now apply Z.pow_pos_nonneg]. }
  destruct (Z_le_gt_dec A B) as [Hle|Hgt].
  - split; [lia|].
    rewrite <- Hdiff. rewrite Pos2Z.inj_mul.
    replace B with ((B - A) + A) in E by lia.
    rewrite Z.pow_add_r in E by lia.
    apply Z.mul_cancel_r with (p := 2 ^ A); [|rewrite E; ring].
    destruct (Hpos A); lia.
  - exfalso.
    replace A with ((A - B) + B) in E by lia.
    rewrite Z.pow_add_r in E by lia.
    assert (E' : Zpos mx * Zpos my * 2 ^ (A - B) = Zpos mz).
    { apply Z.mul_cancel_r with (p := 2 ^ B); [|rewrite <- E; ring].
      destruct (Hpos B); lia. }
    assert (H2 : 2 ^ 1 <= 2 ^ (A - B)) by (apply Z.pow_le_mono_r; lia).
    change (2 ^ 1) with 2 in H2.
    assert (H53 : 2 ^ 53 = 2 ^ 52 * 2) by reflexivity.
    assert (Hx : 1 <= Zpos mx) by lia.
    nia.
Qed.

(** When the exact product is a double, the conversion is exact. *)
Lemma amount_in_wei_exact_product (amount : PyFloat.float) (d : N) :
  (d <= 22)%N ->
  product_is_double amount d ->
  exists wei, exact_base_units amount d = Some wei
              /\ amount_in_wei amount d = Ok wei.
Proof.
  intros Hd Hp.
  destruct (of_int_pow10 d Hd) as (my & ey & Ey & Hmy & Hey & Hval).
  unfold amount_in_wei, PyFloat.mul_int. rewrite Ey.
  destruct amount as [s| | |s mx ex]; try contradiction.
  - exists 0. split; reflexivity.
  - destruct Hp as (mz & ez & Hb & Hv).
    destruct (product_alignment mx my mz ex ey ez _ Hmy Hey Hval (bounded_mantissa _ _ Hb) Hv)
      as [Hle EP].
    unfold PyFloat.mul. cbn [SFmul]. rewrite xorb_false_r.
    rewrite (binary_round_aux_exact s (mx * my) mz (ex + ey) ez Hb Hle EP).
    cbn [PyFloat.to_int exact_base_units].
    eexists. split; [reflexivity|]. do 2 f_equal.
    symmetry. apply same_value_shiftl. exact Hv.
Qed.

(** The amount 0.07 with 18 decimals: the product computed in double
    precision is 70000000000000008, while the double nearest to 0.07 times
    [10^18] truncates to 70000000000000006 (and seven hundredths of [10^18]
    is 70000000000000000). *)
Lemma amount_in_wei_inexact :
  amount_in_wei (PyFloat.decimal 7 100) 18 = Ok 70000000000000008
  /\ exact_base_units (PyFloat.decimal 7 100) 18 = Some 70000000000000006
  /\ ~ (exists wei, exact_base_units (PyFloat.decimal 7 100) 18 = Some wei
                    /\ amount_in_wei (PyFloat.decimal 7 100) 18 = Ok wei).
Proof.
  assert (E1 : amount_in_wei (PyFloat.decimal 7 100) 18 = Ok 70000000000000008)
    by (vm_compute; reflexivity).
  assert (E2 : exact_base_units (PyFloat.decimal 7 100) 18 = Some 70000000000000006)
    by (vm_compute; reflexivity).
  split; [exact E1|]. split; [exact E2|].
  intros (wei & H1 & H2). rewrite E1 in H2. rewrite E2 in H1.
  inversion H1. inversion H2. congruence.
Qed.

(** With 23 decimals even the amount 1.0 is off, because [10^23] is not a
    double. *)
Lemma amount_in_wei_23_decimals :
  amount_in_wei (PyFloat.decimal 1 1) 23 = Ok 99999999999999991611392.
Proof. vm_compute. reflexivity. Qed.

(** ** The contract ordering *)

Lemma contract_eqb_eq (a b : Contract) : contract_eqb a b = true <-> a = b.
Proof.
  unfold contract_eqb. destruct a as [i n ad], b as [i' n' ad']; simpl.
  rewrite !andb_true_iff, Z.eqb_eq, !String.eqb_eq.
  split.
  - intros [[-> ->] ->]; reflexivity.
  - intros E; inversion E; auto.
Qed.

Lemma contract_in_In (c : Contract) (l : list Contract) :
  contract_in c l = true <-> In c l.
Proof.
  induction l as [|x l IH]; simpl.
  - split; [discriminate | tauto].
  - rewrite orb_true_iff, contract_eqb_eq, IH. tauto.
Qed.

Lemma contract_in_false (c : Contract) (l : list Contract) :
  contract_in c l = false <-> ~ In c l.
Proof.
  rewrite <- contract_in_In. destruct (contract_in c l); split; congruence.
Qed.

(** The second loop on a registry of distinct entries: the entries not yet
    listed are appended in registry order. *)
Lemma append_missing_filter (registry : list Contract) :
  NoDup registry ->
  forall acc,
    append_missing registry acc
    = acc ++ filter (fun x => negb (contract_in x acc)) registry.
Proof.
  induction 1 as [|c rest Hc Hnd IH]; intros acc; simpl.
  - now rewrite app_nil_r.
  - destruct (contract_in c acc) eqn:E; simpl.
    + apply IH.
    + rewrite IH, <- app_assoc. simpl. do 2 f_equal.
      apply filter_ext_in. intros x Hx. f_equal.
      destruct (contract_in x acc) eqn:Ex.
      * apply contract_in_In. apply in_or_app. left. now apply contract_in_In.
      * apply contract_in_false. intros Hin. apply in_app_or in Hin.
        destruct Hin as [Hin|[->|[]]].
        -- apply contract_in_false in Ex. contradiction.
        -- contradiction.
Qed.

Lemma filter_all (A : Type) (f : A -> bool) (l : list A) :
  (forall x, In x l -> f x = true) -> filter f l = l.
Proof.
  induction l as [|a l IH]; simpl; intros H; [reflexivity|].
  rewrite (H a) by auto. f_equal. apply IH. auto.
Qed.

(** The first loop finds the first entry with the preferred address. *)
Lemma preferred_first_split (registry : list Contract) (p : string) :
  (preferred_first registry p = []
   /\ forall c, In c registry -> address_matches p c = false)
  \/ (exists c0 pre post,
        registry = pre ++ c0 :: post /\ address_matches p c0 = true
        /\ (forall x, In x pre -> address_matches p x = false)
        /\ preferred_first registry p = [c0]).
Proof.
  induction registry as [|c rest IH]; simpl.
  - left. split; [reflexivity | intros c []].
  - destruct (address_matches p c) eqn:E.
    + right. exists c, [], rest. repeat split; auto. intros x [].
    + destruct IH as [[H1 H2]|(c0 & pre & post & -> & Hm & Hpre & Hf)].
      * left. split; auto. intros x [<-|Hx]; auto.
      * right. exists c0, (c :: pre), post. repeat split; auto.
        intros x [<-|Hx]; auto.
Qed.

Lemma ordering_without_preference (registry : list Contract) :
  NoDup registry -> append_missing registry [] = registry.
Proof.
  intros Hnd. rewrite append_missing_filter by assumption. simpl.
  apply filter_all. reflexivity.
Qed.

Lemma ordering_with_preference (pre post : list Contract) (c0 : Contract) :
  NoDup (pre ++ c0 :: post) ->
  append_missing (pre ++ c0 :: post) [c0] = c0 :: pre ++ post.
Proof.
  intros Hnd. rewrite append_missing_filter by assumption. simpl. f_equal.
  rewrite filter_app. simpl.
  assert (Hc : contract_eqb c0 c0 = true) by now apply contract_eqb_eq.
  rewrite Hc. simpl.
  apply NoDup_remove_2 in Hnd.
  rewrite !filter_all; [reflexivity | |].
  - intros x Hx. rewrite orb_false_r. destruct (contract_eqb c0 x) eqn:E; [|reflexivity].
    apply contract_eqb_eq in E; subst x. exfalso. apply Hnd, in_or_app. now right.
  - intros x Hx. rewrite orb_false_r. destruct (contract_eqb c0 x) eqn:E; [|reflexivity].
    apply contract_eqb_eq in E; subst x. exfalso. apply Hnd, in_or_app. now left.
Qed.

Lemma lower_empty (s : string) : lower s = EmptyString -> s = EmptyString.
Proof. destruct s; simpl; [reflexivity | discriminate]. Qed.

Lemma empty_matches_nothing (registry : list Contract) (c : Contract) :
  Forall (fun c => address c <> EmptyString) registry -> In c registry ->
  address_matches EmptyString c = false.
Proof.
  intros HF Hin. rewrite Forall_forall in HF. specialize (HF c Hin).
  unfold address_matches. simpl. apply String.eqb_neq. intros E. apply HF.
  now apply lower_empty.
Qed.

(** What the ordering is, by cases on the preferred address. *)
Lemma contract_ordering_cases (registry : list Contract) (preferred : option string) :
  registry_wf registry ->
  (contract_ordering registry preferred = registry
   /\ (preferred = None
       \/ exists p, preferred = Some p
                    /\ forall c, In c registry -> address_matches p c = false))
  \/ (exists p c0 pre post,
        preferred = Some p /\ registry = pre ++ c0 :: post
        /\ address_matches p c0 = true
        /\ (forall x, In x pre -> address_matches p x = false)
        /\ contract_ordering registry preferred = c0 :: pre ++ post).
Proof.
  intros [Hnd Haddr]. unfold contract_ordering.
  destruct preferred as [p|].
  - destruct (str_truthy p) eqn:Ht.
    + destruct (preferred_first_split registry p)
        as [[H1 H2]|(c0 & pre & post & E & Hm & Hpre & Hf)].
      * left. rewrite H1. split; [now apply ordering_without_preference|].
        right. exists p. auto.
      * right. exists p, c0, pre, post. rewrite Hf. subst registry.
        repeat split; auto. now apply ordering_with_preference.
    + left. split; [now apply ordering_without_preference|].
      right. exists p. split; [reflexivity|].
      destruct p; [|discriminate]. intros c Hc.
      now apply (empty_matches_nothing registry).
  - left. split; [now apply ordering_without_preference | now left].
Qed.

(** The ordering lists the entries of the registry, each of them once. *)
Lemma contract_ordering_permutation (registry : list Contract) (preferred : option string) :
  registry_wf registry ->
  Permutation (contract_ordering registry preferred) registry
  /\ NoDup (contract_ordering registry preferred).
Proof.
  intros Hwf.
  assert (HP : Permutation (contract_ordering registry preferred) registry).
  { destruct (contract_ordering_cases registry preferred Hwf)
      as [[E _]|(p & c0 & pre & post & _ & E & _ & _ & Eo)].
    - rewrite E. apply Permutation_refl.
    - rewrite Eo, E. apply Permutation_middle. }
  split; [exact HP|]. apply (Permutation_NoDup (Permutation_sym HP)), Hwf.
Qed.

Lemma CONTRACTS_wf : registry_wf CONTRACTS.
Proof.
  split.
  - repeat constructor; simpl; intuition discriminate.
  - repeat constructor; discriminate.
Qed.

(** C4. For every registry (of distinct entries with non-empty addresses)
    and every optional preferred address, the ordering is a permutation of
    the registry: same length, no entry dropped or duplicated.  If the
    preferred address equals the address of an entry, ignoring case, the
    first such entry comes first and the others follow in registry order; if
    no preferred address is given or it matches no entry, the ordering is
    the registry itself. *)
Theorem contract_ordering_is_permutation
  (registry : list Contract) (preferred : option string) :
  registry_wf registry ->
  Permutation (contract_ordering registry preferred) registry
  /\ List.length (contract_ordering registry preferred) = List.length registry
  /\ NoDup (contract_ordering registry preferred)
  /\ (forall p c, preferred = Some p -> In c registry -> address_matches p c = true ->
      exists c0 pre post,
        registry = pre ++ c0 :: post
        /\ address_matches p c0 = true
        /\ (forall x, In x pre -> address_matches p x = false)
        /\ contract_ordering registry preferred = c0 :: pre ++ post)
  /\ ((preferred = None
       \/ exists p, preferred = Some p
                    /\ forall c, In c registry -> address_matches p c = false) ->
      contract_ordering registry preferred = registry).
Proof.
  intros Hwf.
  destruct (contract_ordering_permutation registry preferred Hwf) as [HP Hnd].
  split; [exact HP|]. split; [now apply Permutation_length|].
  split; [exact Hnd|].
  split.
  - intros p c -> Hin Hm.
    destruct (contract_ordering_cases registry (Some p) Hwf)
      as [[_ [E|(q & E & Hno)]]|(q & c0 & pre & post & E & Er & Hm0 & Hpre & Eo)].
    + discriminate.
    + inversion E; subst q. rewrite (Hno c Hin) in Hm. discriminate.
    + inversion E; subst q. exists c0, pre, post. auto.
  - intros Hnone.
    destruct (contract_ordering_cases registry preferred Hwf)
      as [[E _]|(q & c0 & pre & post & E & Er & Hm0 & Hpre & Eo)]; [exact E|].
    exfalso. destruct Hnone as [Hn|(p & Hp & Hno)]; [congruence|].
    rewrite Hp in E. inversion E; subst q.
    rewrite Hno in Hm0; [discriminate|]. subst registry. apply in_or_app. right. now left.
Qed.

Lemma contract_ordering_is_permutation_witness :
  registry_wf CONTRACTS
  /\ contract_ordering CONTRACTS (Some "0XF97a395850304b8ec9B8f9c80A17674886612065")
     = [Tertiary; Primary; Secondary]
  /\ Permutation (contract_ordering CONTRACTS (Some "0XF97a395850304b8ec9B8f9c80A17674886612065")) CONTRACTS.
Proof.
  split; [exact CONTRACTS_wf|]. split; [reflexivity|].
  exact (proj1 (contract_ordering_is_permutation CONTRACTS _ CONTRACTS_wf)).
Defined.

(** ** One iteration of the dispatcher *)

Lemma attempts_app (t1 t2 : list Event) :
  attempts (t1 ++ t2) = attempts t1 ++ attempts t2.
Proof.
  induction t1 as [|e t1 IH]; [reflexivity|].
  destruct e as [[]|]; simpl; rewrite ?IH; reflexivity.
Qed.

Lemma broadcasts_app (t1 t2 : list Event) :
  broadcasts (t1 ++ t2) = broadcasts t1 ++ broadcasts t2.
Proof.
  induction t1 as [|e t1 IH]; [reflexivity|].
  destruct e as [|[]]; simpl; rewrite ?IH; reflexivity.
Qed.

Lemma built_app (t1 t2 : list Event) :
  built (t1 ++ t2) = built t1 ++ built t2.
Proof.
  induction t1 as [|e t1 IH]; [reflexivity|].
  destruct e as [|[]]; simpl; rewrite ?IH; reflexivity.
Qed.

Lemma calls_app (t1 t2 : list Event) : calls (t1 ++ t2) = calls t1 ++ calls t2.
Proof.
  induction t1 as [|e t1 IH]; [reflexivity|].
  destruct e; simpl; rewrite ?IH; reflexivity.
Qed.

Section DispatcherFacts.

Variable chain : ChainClient.
Variable g : Globals.
Variable user_wallet : string.
Variable amount_requested : PyFloat.float.

Lemma resolve_metadata_total token h :
  exists m t, resolve_metadata chain token h = (Ok m, t)
              /\ attempts t = [] /\ broadcasts t = [] /\ built t = [].
Proof.
  unfold resolve_metadata. unfold_monad.
  run_all; eexists; eexists; repeat split; reflexivity.
Qed.

(** The preparation of an iteration starts no attempt and sends nothing. *)
Lemma prepare_quiet c h r t :
  prepare chain g amount_requested c h = (r, t) ->
  attempts t = [] /\ broadcasts t = [] /\ built t = [].
Proof.
  unfold prepare, resolve_metadata. unfold_monad.
  run_all; intros E; inversion E; subst; repeat split; reflexivity.
Qed.

(** The mint attempt never raises, counts as one attempt, and a success
    comes with exactly one broadcast. *)
Lemma try_mint_total c ctx h :
  exists r t,
    try_mint chain g user_wallet c ctx h = (Ok r, t)
    /\ attempts t = [(c, MINT)]
    /\ (List.length (broadcasts t) <= 1)%nat
    /\ (forall o, r = Some o ->
        List.length (broadcasts t) = 1%nat
        /\ success o = true /\ method o = "mint"
        /\ contract o = name c /\ contractAddress o = address c).
Proof.
  unfold try_mint, submit. unfold_monad.
  run_all; eexists; eexists; (split; [reflexivity|]); (split; [reflexivity|]);
    (split; [cbn; lia|]); intros o E; inversion E; subst; cbn; auto.
Qed.

Lemma try_transfer_total c ctx h :
  exists r t,
    try_transfer chain g user_wallet c ctx h = (Ok r, t)
    /\ attempts t = [(c, TRANSFER)]
    /\ (List.length (broadcasts t) <= 1)%nat
    /\ (forall o, r = Some o ->
        List.length (broadcasts t) = 1%nat
        /\ success o = true /\ method o = "transfer"
        /\ contract o = name c /\ contractAddress o = address c).
Proof.
  unfold try_transfer, submit. unfold_monad.
  run_all; eexists; eexists; (split; [reflexivity|]); (split; [reflexivity|]);
    (split; [cbn; lia|]); intros o E; inversion E; subst; cbn; auto.
Qed.

(** One iteration, unfolded along its three stages. *)
Lemma attempt_contract_unfold index c h :
  attempt_contract chain g user_wallet amount_requested index c h
  = let h1 := h ++ [ELog (LAttempt index c)] in
    match prepare chain g amount_requested c h1 with
    | (Raise e, t0) =>
        (Ok None, ELog (LAttempt index c) :: t0 ++ [ELog (LContractError index e)])
    | (Ok ctx, t0) =>
        match try_mint chain g user_wallet c ctx (h1 ++ t0) with
        | (Ok (Some o), t1) => (Ok (Some o), ELog (LAttempt index c) :: t0 ++ t1)
        | (Ok None, t1) =>
            match try_transfer chain g user_wallet c ctx ((h1 ++ t0) ++ t1) with
            | (Ok r, t2) => (Ok r, ELog (LAttempt index c) :: t0 ++ t1 ++ t2)
            | (Raise e, t2) =>
                (Ok None,
                 ELog (LAttempt index c) :: (t0 ++ t1 ++ t2) ++ [ELog (LContractError index e)])
            end
        | (Raise e, t1) =>
            (Ok None, ELog (LAttempt index c) :: (t0 ++ t1) ++ [ELog (LContractError index e)])
        end
    end.
Proof.
  unfold attempt_contract. unfold_monad. cbn -[prepare try_mint try_transfer].
  destruct (prepare chain g amount_requested c (h ++ [ELog (LAttempt index c)]))
    as [[ctx|e] t0]; cbn -[try_mint try_transfer].
  - destruct (try_mint chain g user_wallet c ctx ((h ++ [ELog (LAttempt index c)]) ++ t0))
      as [[[o|]|e] t1]; cbn -[try_transfer].
    + rewrite !app_nil_r. reflexivity.
    + destruct (try_transfer chain g user_wallet c ctx
                  (((h ++ [ELog (LAttempt index c)]) ++ t0) ++ t1)) as [[r|e] t2]; cbn.
      * rewrite ?app_nil_r. reflexivity.
      * reflexivity.
    + reflexivity.
  - rewrite ?app_nil_r. reflexivity.
Qed.

Lemma attempt_contract_mint index c h :
  reachable chain g amount_requested c ->
  mint_succeeds chain g user_wallet amount_requested c ->
  exists o t,
    attempt_contract chain g user_wallet amount_requested index c h = (Ok (Some o), t)
    /\ attempts t = [(c, MINT)] /\ List.length (broadcasts t) = 1%nat
    /\ success o = true /\ method o = "mint"
    /\ contract o = name c /\ contractAddress o = address c.
Proof.
  intros Hr Hm. rewrite attempt_contract_unfold. cbv zeta.
  destruct (Hr (h ++ [ELog (LAttempt index c)])) as (ctx & t0 & Ep). rewrite Ep.
  destruct (Hm _ _ _ Ep) as (o & Eo).
  destruct (try_mint_total c ctx ((h ++ [ELog (LAttempt index c)]) ++ t0))
    as (r & t1 & Em & Ha & _ & Hs).
  rewrite Em in Eo |- *. simpl in Eo. inversion Eo; subst r.
  destruct (prepare_quiet _ _ _ _ Ep) as (Pa & Pb & _).
  destruct (Hs o eq_refl) as (Hb & Hrest).
  exists o, (ELog (LAttempt index c) :: t0 ++ t1). split; [reflexivity|].
  simpl. rewrite attempts_app, broadcasts_app, Pa, Pb, Ha. simpl. auto.
Qed.



(** An iteration never raises. *)
Lemma attempt_contract_total index c h :
  exists r t, attempt_contract chain g user_wallet amount_requested index c h = (Ok r, t).
Proof.
  rewrite attempt_contract_unfold. cbv zeta.
  destruct (prepare _ _ _ _ _) as [[ctx|e] t0]; [|eauto].
  destruct (try_mint _ _ _ _ _ _) as [[[o|]|e] t1]; eauto.
  destruct (try_transfer _ _ _ _ _ _) as [[r|e] t2]; eauto.
Qed.

Lemma dispatch_loop_cons index c rest h :
  dispatch_loop chain g user_wallet amount_requested ((index, c) :: rest) h
  = match attempt_contract chain g user_wallet amount_requested index c h with
    | (Ok (Some o), t) => (Ok (Some o), t)
    | (Ok None, t) =>
        let (r, t') := dispatch_loop chain g user_wallet amount_requested rest (h ++ t) in
        (r, t ++ t')
    | (Raise e, t) => (Raise e, t)
    end.
Proof.
  cbn -[attempt_contract]. unfold bind.
  destruct (attempt_contract _ _ _ _ _ _ _) as [[[o|]|e] t]; cbn; rewrite ?app_nil_r; reflexivity.
Qed.

Lemma dispatch_loop_total l h :
  exists r t, dispatch_loop chain g user_wallet amount_requested l h = (Ok r, t).
Proof.
  revert h. induction l as [|[index c] rest IH]; intros h.
  - exists None, []. reflexivity.
  - rewrite dispatch_loop_cons.
    destruct (attempt_contract_total index c h) as (r & t & E). rewrite E.
    destruct r as [o|]; [eauto|].
    destruct (IH (h ++ t)) as (r' & t' & E'). rewrite E'. eauto.
Qed.

End DispatcherFacts.

(** ** The dispatch loop *)

Section DispatchTheorems.

Variable chain : ChainClient.
Variable g : Globals.
Variable user_wallet : string.
Variable amount_requested : PyFloat.float.

Lemma process_withdrawal_unfold preferred h :
  signer_ready g = true ->
  is_address chain user_wallet = true ->
  PyFloat.le_zero amount_requested = false ->
  process_withdrawal chain g user_wallet amount_requested preferred h
  = let start := ELog (LProcessing amount_requested user_wallet) in
    match dispatch_loop chain g user_wallet amount_requested
            (enumerate (contract_ordering CONTRACTS preferred)) (h ++ [start]) with
    | (Ok (Some o), t) => (Ok o, start :: t)
    | (Ok None, t) =>
        (Raise (HTTPException 500 "All withdrawal methods exhausted"),
         start :: t ++ [ELog LAllFailed])
    | (Raise e, t) => (Raise e, start :: t)
    end.
Proof.
  unfold signer_ready, process_withdrawal. intros Hs Ha Hz.
  apply andb_true_iff in Hs. destruct Hs as [-> ->]. rewrite Ha, Hz.
  cbn -[dispatch_loop enumerate contract_ordering CONTRACTS]. unfold_monad.
  cbn -[dispatch_loop enumerate contract_ordering CONTRACTS].
  destruct (dispatch_loop _ _ _ _ _ _) as [[[o|]|e] t];
    cbn; rewrite ?app_nil_r; reflexivity.
Qed.



Lemma map_snd_enumerate (A : Type) (l : list A) : map snd (enumerate l) = l.
Proof.
  unfold enumerate. generalize 0%nat. induction l as [|a l IH]; intros n; simpl;
    [reflexivity | now rewrite IH].
Qed.

(** A malformed destination or a non-positive amount stops the dispatcher
    before it touches anything. *)
Lemma process_withdrawal_rejects preferred h :
  is_address chain user_wallet = false \/ PyFloat.le_zero amount_requested = true ->
  exists e,
    process_withdrawal chain g user_wallet amount_requested preferred h = (Raise e, [])
    /\ (e = HTTPException 503 "Web3 not connected"
        \/ e = ValueError "Invalid wallet address"
        \/ e = ValueError "Invalid amount").
Proof.
  intros H. unfold process_withdrawal.
  destruct (negb (is_some (web3_instance g)) || negb (is_some (admin_account g))).
  - eexists. split; [reflexivity | auto].
  - destruct (is_address chain user_wallet) eqn:Ea; cbn [negb].
    + destruct H as [H|H]; [discriminate|]. rewrite H.
      eexists. split; [reflexivity | auto].
    + eexists. split; [reflexivity | auto].
Qed.


End DispatchTheorems.

Section MainTheorems.

Variable chain : ChainClient.
Variable g : Globals.
Variable user_wallet : string.
Variable amount_requested : PyFloat.float.


(** C2. When MINT succeeds on the first contract of the ordering, nothing
    else is attempted: that mint is the only attempt, exactly one
    transaction is broadcast, and its success outcome is returned. *)
Theorem first_mint_success_stops_dispatch
  (preferred : option string) (h : History) (c1 : Contract) (rest : list Contract) :
  signer_ready g = true ->
  is_address chain user_wallet = true ->
  PyFloat.le_zero amount_requested = false ->
  contract_ordering CONTRACTS preferred = c1 :: rest ->
  reachable chain g amount_requested c1 ->
  mint_succeeds chain g user_wallet amount_requested c1 ->
  exists o t,
    process_withdrawal chain g user_wallet amount_requested preferred h = (Ok o, t)
    /\ attempts t = [(c1, MINT)]
    /\ List.length (broadcasts t) = 1%nat
    /\ success o = true /\ method o = "mint"
    /\ contract o = name c1 /\ contractAddress o = address c1.
Proof.
  intros Hs Ha Hz Ho Hr Hm.
  rewrite process_withdrawal_unfold by assumption. cbv zeta.
  rewrite Ho. unfold enumerate. cbn [List.length seq combine].
  rewrite dispatch_loop_cons.
  destruct (attempt_contract_mint chain g user_wallet amount_requested 0 c1
              (h ++ [ELog (LProcessing amount_requested user_wallet)]) Hr Hm)
    as (o & t & E & A & B & Hrest). rewrite E.
  exists o. eexists. split; [reflexivity|].
  simpl. rewrite A, B. auto.
Qed.


End MainTheorems.

(** ** The nonce of the transfer attempt *)

Section Nonce.
Variable chain : ChainClient.
Variable g : Globals.
Variable user_wallet : string.
Variable amount_requested : PyFloat.float.

Lemma try_mint_built c ctx h r t :
  try_mint chain g user_wallet c ctx h = (r, t) ->
  forall tx, In tx (built t) -> tx_op tx = MINT /\ tx_nonce tx = current_nonce ctx.
Proof.
  unfold try_mint, submit. unfold_monad.
  run_all; intros E; inversion E; subst; cbn; intros tx Hin;
    repeat (destruct Hin as [<-|Hin]; [split; reflexivity|]); destruct Hin.
Qed.

Lemma try_transfer_built c ctx h r t :
  try_transfer chain g user_wallet c ctx h = (r, t) ->
  (exists rest,
     t = ELog (LTryingTransfer c (token_symbol ctx))
           :: ECall (CGetTransactionCount (admin_address g)) :: rest)
  /\ forall tx, In tx (built t) ->
       tx_op tx = TRANSFER
       /\ get_transaction_count chain
            (h ++ [ELog (LTryingTransfer c (token_symbol ctx))]) (admin_address g)
          = Ok (tx_nonce tx).
Proof.
  unfold try_transfer, submit. unfold_monad.
  run_all; intros E; inversion E; subst; cbn; (split; [eexists; reflexivity|]);
    intros tx Hin;
    repeat (destruct Hin as [<-|Hin]; [split; [reflexivity | first [assumption | reflexivity]]|]); destruct Hin.
Qed.

Lemma try_transfer_ignores_mint_nonce c ctx n h :
  try_transfer chain g user_wallet c (with_nonce ctx n) h
  = try_transfer chain g user_wallet c ctx h.
Proof. reflexivity. Qed.

(** C6. In an iteration whose MINT attempt has failed, the TRANSFER attempt
    starts by asking the chain for the transaction count again; every
    transfer transaction it builds carries the answer to that query, made
    after all the events of the MINT attempt, while the mint transaction
    carried the earlier one; the nonce of the MINT attempt plays no part in
    the TRANSFER attempt. *)
Theorem transfer_nonce_is_requeried (index : nat) (c : Contract) (h : History)
  (ctx : Ctx) (t0 t1 : list Event) :
  let h1 := h ++ [ELog (LAttempt index c)] in
  let h2 := (h1 ++ t0) ++ t1 in
  prepare chain g amount_requested c h1 = (Ok ctx, t0) ->
  try_mint chain g user_wallet c ctx (h1 ++ t0) = (Ok None, t1) ->
  exists r2 t2,
    attempt_contract chain g user_wallet amount_requested index c h
    = (Ok r2, ELog (LAttempt index c) :: t0 ++ t1 ++ t2)
    /\ try_transfer chain g user_wallet c ctx h2 = (Ok r2, t2)
    /\ built t0 = []
    /\ (forall tx, In tx (built t1) -> tx_op tx = MINT /\ tx_nonce tx = current_nonce ctx)
    /\ (exists rest,
          t2 = ELog (LTryingTransfer c (token_symbol ctx))
                 :: ECall (CGetTransactionCount (admin_address g)) :: rest)
    /\ (forall tx, In tx (built t2) ->
          tx_op tx = TRANSFER
          /\ get_transaction_count chain
               (h2 ++ [ELog (LTryingTransfer c (token_symbol ctx))]) (admin_address g)
             = Ok (tx_nonce tx))
    /\ (forall n, try_transfer chain g user_wallet c (with_nonce ctx n) h2 = (Ok r2, t2)).
Proof.
  intros h1 h2 Ep Em.
  destruct (try_transfer_total chain g user_wallet c ctx h2) as (r2 & t2 & Et & _).
  exists r2, t2. rewrite attempt_contract_unfold. cbv zeta.
  fold h1. rewrite Ep, Em. fold h2. rewrite Et.
  split; [reflexivity|]. split; [reflexivity|].
  split; [apply (prepare_quiet _ _ _ _ _ _ _ Ep)|].
  split; [apply (try_mint_built _ _ _ _ _ Em)|].
  destruct (try_transfer_built _ _ _ _ _ Et) as [Hq Hb].
  split; [exact Hq|]. split; [exact Hb|].
  intros n. rewrite try_transfer_ignores_mint_nonce. exact Et.
Qed.

End Nonce.

(** ** Token metadata *)

Section Metadata.
Variable chain : ChainClient.
Variable g : Globals.
Variable user_wallet : string.
Variable amount_requested : PyFloat.float.



End Metadata.

(** ** The withdraw endpoint *)

Lemma withdraw_endpoint_unfold chain g data h x w :
  float_of_amount (amount data) = Ok x ->
  walletAddress data = Some w ->
  str_truthy w = true ->
  PyFloat.le_zero x = false ->
  withdraw_endpoint chain g true data h
  = let start := ELog (LWithdrawalRequest x w) in
    match process_withdrawal chain g w x (tokenAddress data) (h ++ [start]) with
    | (Ok o, t) => (Ok o, start :: t ++ [ELog (LWithdrawalSuccessful (txHash o))])
    | (Raise e, t) =>
        (Raise (HTTPException 500 ("Withdrawal failed: " ++ str_exc e)%string),
         start :: t ++ [ELog (LWithdrawalFailed e)])
    end.
Proof.
  intros Ex Ew Ht Hz. unfold withdraw_endpoint. unfold_monad.
  cbn [negb]. rewrite Ex, Ew, Ht, Hz. cbn [negb orb fst snd]. rewrite !app_nil_r.
  destruct (process_withdrawal chain g w x (tokenAddress data)
              (h ++ [ELog (LWithdrawalRequest x w)])) as [[o|e] t]; cbn;
    rewrite ?app_nil_r; reflexivity.
Qed.

(** C5. A request with a malformed destination address or a non-positive
    amount makes the dispatcher fail at once with one of its precondition
    errors, without a single event; through the endpoint such a request is
    an error too, and no call is made on the chain and nothing is
    broadcast. *)
Theorem precondition_failure_makes_no_call
  (chain : ChainClient) (g : Globals) (user_wallet : string)
  (amount_requested : PyFloat.float) (preferred : option string) (h : History) :
  is_address chain user_wallet = false \/ PyFloat.le_zero amount_requested = true ->
  (exists e,
     process_withdrawal chain g user_wallet amount_requested preferred h = (Raise e, [])
     /\ (e = HTTPException 503 "Web3 not connected"
         \/ e = ValueError "Invalid wallet address"
         \/ e = ValueError "Invalid amount"))
  /\ (forall web3_ready data r t,
        walletAddress data = Some user_wallet ->
        amount data = AmountValue amount_requested ->
        withdraw_endpoint chain g web3_ready data h = (r, t) ->
        (exists e, r = Raise e) /\ calls t = [] /\ broadcasts t = []).
Proof.
  intros Hbad. split; [now apply process_withdrawal_rejects|].
  intros web3_ready data r t Ew Ea.
  destruct web3_ready.
  - destruct (str_truthy user_wallet) eqn:Ht;
      [destruct (PyFloat.le_zero amount_requested) eqn:Hz|].
    + unfold withdraw_endpoint. unfold_monad. rewrite Ea, Ew. cbn. rewrite Ht, Hz. cbn.
      intros E; inversion E; subst. repeat split; eauto.
    + assert (Ex : float_of_amount (amount data) = Ok amount_requested)
        by (rewrite Ea; reflexivity).
      rewrite (withdraw_endpoint_unfold chain g data h _ _ Ex Ew Ht Hz). cbv zeta.
      destruct Hbad as [Hbad|Hbad]; [|congruence].
      destruct (process_withdrawal_rejects chain g user_wallet amount_requested
                  (tokenAddress data)
                  (h ++ [ELog (LWithdrawalRequest amount_requested user_wallet)])
                  (or_introl Hbad)) as (e & E & _).
      rewrite E. intros E'; inversion E'; subst. repeat split; eauto.
    + unfold withdraw_endpoint. unfold_monad. rewrite Ea, Ew. cbn. rewrite Ht. cbn.
      intros E; inversion E; subst. repeat split; eauto.
  - cbn. intros E; inversion E; subst. repeat split; eauto.
Qed.


(** ** Initialisation *)

Section Init.
Variable chain : ChainClient.

Lemma init_wallet_seed_only cfg h r t :
  str_truthy (ADMIN_SEED_PHRASE cfg) = true ->
  init_wallet chain cfg h = (r, t) ->
  forall key, ~ In (CFromKey key) (calls t).
Proof.
  unfold init_wallet. intros ->. unfold_monad.
  run_all; intros E; inversion E; subst; cbn; intros key Hin;
    repeat (destruct Hin as [Hin|Hin]; [discriminate|]); destruct Hin.
Qed.

(** After the wallet stage nothing asks for a key any more. *)
Lemma init_web3_after_wallet cfg h r t :
  init_web3 chain cfg h = (r, t) ->
  exists rw tw rest,
    init_wallet chain cfg h = (rw, tw) /\ t = tw ++ rest
    /\ forall key, ~ In (CFromKey key) (calls rest).
Proof.
  unfold init_web3, check_balance. unfold bind at 1.
  destruct (init_wallet chain cfg h) as [[[g1|]|e] tw].
  - unfold_monad. run_all; intros E; inversion E; subst;
      eexists; eexists; eexists; (split; [reflexivity|]); (split; [reflexivity|]);
      cbn; intros key Hin;
      repeat (destruct Hin as [Hin|Hin]; [discriminate|]); destruct Hin.
  - cbn. intros E; inversion E; subst.
    exists (Ok None), tw, []. repeat split; auto.
  - intros E; inversion E; subst. exists (Raise e), t, []. rewrite app_nil_r.
    repeat split; auto.
Qed.

(** The private key is handed to [Account.from_key] only when no seed phrase
    is configured. *)
Lemma private_key_only_without_seed cfg h r t key :
  init_web3 chain cfg h = (r, t) ->
  In (CFromKey key) (calls t) ->
  ADMIN_SEED_PHRASE cfg = EmptyString.
Proof.
  intros E Hin.
  destruct (str_truthy (ADMIN_SEED_PHRASE cfg)) eqn:Hs.
  - exfalso.
    destruct (init_web3_after_wallet cfg h _ _ E) as (rw & tw & rest & Ew & -> & Hrest).
    rewrite calls_app in Hin. apply in_app_or in Hin. destruct Hin as [Hin|Hin].
    + apply (init_wallet_seed_only cfg h rw tw Hs Ew key Hin).
    + apply (Hrest key Hin).
  - destruct (ADMIN_SEED_PHRASE cfg); [reflexivity | discriminate].
Qed.

(** C10. With a seed phrase configured whose derivation fails, [init_web3]
    returns [False] and leaves no signer, the private key is never handed
    to [Account.from_key], and from then on every withdrawal request is
    refused with 503; in any run of [init_web3], the private key is used
    only when the seed phrase is empty. *)
Theorem seed_phrase_failure_blocks_init (cfg : Config) (h : History) :
  str_truthy (ADMIN_SEED_PHRASE cfg) = true ->
  derivation_fails chain (ADMIN_SEED_PHRASE cfg) h ->
  exists t,
    init_web3 chain cfg h = (Ok (false, no_globals), t)
    /\ (forall key, ~ In (CFromKey key) (calls t))
    /\ (forall g data h',
          fst (withdraw_endpoint chain g false data h')
          = Raise (HTTPException 503 "Backend not connected to blockchain"))
    /\ (forall w x preferred h',
          fst (process_withdrawal chain no_globals w x preferred h')
          = Raise (HTTPException 503 "Web3 not connected"))
    /\ (forall cfg' h' r t' key,
          init_web3 chain cfg' h' = (r, t') ->
          In (CFromKey key) (calls t') ->
          ADMIN_SEED_PHRASE cfg' = EmptyString).
Proof.
  intros Hs Hd.
  assert (E : exists t, init_web3 chain cfg h = (Ok (false, no_globals), t)).
  { unfold init_web3, init_wallet. rewrite Hs. unfold_monad.
    destruct Hd as [(e & E1)|(e & E1 & E2)].
    - rewrite E1. cbn. eexists. reflexivity.
    - rewrite E1. cbn. rewrite E2. cbn. eexists. reflexivity. }
  destruct E as (t & E). exists t. split; [exact E|]. split; [|split; [|split]].
  - intros key Hin.
    destruct (init_web3_after_wallet cfg h _ _ E) as (rw & tw & rest & Ew & -> & Hrest).
    rewrite calls_app in Hin. apply in_app_or in Hin. destruct Hin as [Hin|Hin].
    + apply (init_wallet_seed_only cfg h rw tw Hs Ew key Hin).
    + apply (Hrest key Hin).
  - reflexivity.
  - reflexivity.
  - intros cfg' h' r t' key. apply private_key_only_without_seed.
Qed.

End Init.

Lemma init_wallet_account chain cfg h g1 t :
  init_wallet chain cfg h = (Ok (Some g1), t) ->
  is_some (admin_account g1) = true.
Proof.
  unfold init_wallet. unfold_monad.
  run_all; intros E; inversion E; subst; reflexivity.
Qed.

(** When [init_web3] returns [True], the connection and the signer are
    there, so behind a true [web3_ready] the dispatcher's own 503 cannot
    occur. *)
Lemma init_web3_true_signer_ready chain cfg h g t :
  init_web3 chain cfg h = (Ok (true, g), t) -> signer_ready g = true.
Proof.
  unfold init_web3, check_balance. unfold bind at 1.
  destruct (init_wallet chain cfg h) as [[[g1|]|e] tw] eqn:Ew.
  - apply init_wallet_account in Ew. unfold signer_ready. unfold_monad.
    run_all; intros E; inversion E; subst; cbn; assumption.
  - cbn. discriminate.
  - discriminate.
Qed.

(** ** The example node *)

Lemma prepare_token_contract chain g amount c h ctx t :
  prepare chain g amount c h = (Ok ctx, t) ->
  to_checksum_address chain (address c) = Ok (token_contract ctx).
Proof.
  unfold prepare, resolve_metadata. unfold_monad.
  run_all; intros E; inversion E; subst; reflexivity.
Qed.

Lemma prepare_gas_price chain g amount c h ctx t :
  prepare chain g amount c h = (Ok ctx, t) ->
  exists h', gas_price chain h' = Ok (current_gas_price ctx).
Proof.
  unfold prepare, resolve_metadata. unfold_monad.
  run_all; intros E; inversion E; subst; eexists; eassumption.
Qed.

Lemma inflated_30_gwei : inflated_gas_price 30000000000 = Ok 36000000000.
Proof. vm_compute. reflexivity. Qed.

Lemma f1_5_positive : PyFloat.le_zero PyFloat.f1_5 = false.
Proof. reflexivity. Qed.

Lemma f1_5_six_decimals : amount_in_wei PyFloat.f1_5 6 = Ok 1500000.
Proof. vm_compute. reflexivity. Qed.

Lemma f1_5_eighteen_decimals : amount_in_wei PyFloat.f1_5 18 = Ok 1500000000000000000.
Proof. vm_compute. reflexivity. Qed.

Lemma example_reachable mined metadata_ok mnemonic_ok c :
  In c CONTRACTS ->
  reachable (example_chain mined metadata_ok mnemonic_ok) example_globals PyFloat.f1_5 c.
Proof.
  intros Hc h. unfold prepare, resolve_metadata. unfold_monad.
  destruct Hc as [<-|[<-|[<-|[]]]]; destruct metadata_ok;
    cbn -[amount_in_wei]; rewrite ?f1_5_six_decimals, ?f1_5_eighteen_decimals;
    cbn; eexists; eexists; reflexivity.
Qed.




Lemma example_mint_mined metadata_ok mnemonic_ok :
  mint_succeeds (example_chain ["mint@0x29983BE497D4c1D39Aa80D20Cf74173ae81D2af5"]
                   metadata_ok mnemonic_ok) example_globals
    example_wallet PyFloat.f1_5 Primary.
Proof.
  intros h ctx t0 Ep.
  destruct (prepare_gas_price _ _ _ _ _ _ _ Ep) as (h' & Eg).
  apply prepare_token_contract in Ep.
  cbn in Ep, Eg. inversion Ep as [E]. inversion Eg as [E'].
  unfold try_mint, submit. unfold_monad.
  cbn -[inflated_gas_price existsb].
  rewrite <- E', inflated_30_gwei, <- E. eexists. reflexivity.
Qed.


Lemma first_mint_success_stops_dispatch_witness :
  exists o t,
    process_withdrawal
      (example_chain ["mint@0x29983BE497D4c1D39Aa80D20Cf74173ae81D2af5"] true true)
      example_globals example_wallet PyFloat.f1_5 None [] = (Ok o, t)
    /\ attempts t = [(Primary, MINT)]
    /\ List.length (broadcasts t) = 1%nat
    /\ success o = true /\ method o = "mint"
    /\ contract o = name Primary /\ contractAddress o = address Primary.
Proof.
  apply (first_mint_success_stops_dispatch _ example_globals example_wallet PyFloat.f1_5
           None [] Primary [Secondary; Tertiary]).
  - reflexivity.
  - reflexivity.
  - reflexivity.
  - reflexivity.
  - apply example_reachable. simpl; auto.
  - apply example_mint_mined.
Defined.


Lemma precondition_failure_makes_no_call_witness :
  (exists e,
     process_withdrawal (example_chain [] true true) example_globals "not-an-address"
       PyFloat.f1_5 None [] = (Raise e, [])
     /\ (e = HTTPException 503 "Web3 not connected"
         \/ e = ValueError "Invalid wallet address"
         \/ e = ValueError "Invalid amount"))
  /\ calls (snd (withdraw_endpoint (example_chain [] true true) example_globals true
                   (mkData (Some "not-an-address") (AmountValue PyFloat.f1_5) None None) []))
     = [].
Proof.
  destruct (precondition_failure_makes_no_call (example_chain [] true true) example_globals
              "not-an-address" PyFloat.f1_5 None []) as [H1 H2].
  - left. reflexivity.
  - split; [exact H1|].
    destruct (withdraw_endpoint (example_chain [] true true) example_globals true
                (mkData (Some "not-an-address") (AmountValue PyFloat.f1_5) None None) [])
      as [r t] eqn:E.
    exact (proj1 (proj2 (H2 true
             (mkData (Some "not-an-address") (AmountValue PyFloat.f1_5) None None)
             r t eq_refl eq_refl E))).
Defined.

Lemma transfer_nonce_is_requeried_witness :
  exists r2 t2,
    try_transfer (example_chain third_only true true) example_globals example_wallet
      Primary example_ctx
      (([ELog (LAttempt 0 Primary)] ++ example_prepare_trace) ++ example_mint_trace)
    = (Ok r2, t2)
    /\ map tx_nonce (built example_mint_trace) = [7]
    /\ map tx_nonce (built t2) = [8].
Proof.
  destruct (transfer_nonce_is_requeried (example_chain third_only true true)
              example_globals example_wallet PyFloat.f1_5 0%nat Primary []
              example_ctx example_prepare_trace example_mint_trace)
    as (r2 & t2 & _ & Et & _).
  - vm_compute. reflexivity.
  - vm_compute. reflexivity.
  - exists r2, t2. split; [exact Et|]. split; [reflexivity|].
    vm_compute in Et. inversion Et. reflexivity.
Defined.




Lemma seed_phrase_failure_blocks_init_witness :
  exists t,
    init_web3 (example_chain [] true false) example_config [] = (Ok (false, no_globals), t)
    /\ (forall key, ~ In (CFromKey key) (calls t)).
Proof.
  destruct (seed_phrase_failure_blocks_init (example_chain [] true false) example_config [])
    as (t & E & Hkey & _).
  - reflexivity.
  - right. exists (ValueError "mnemonic is not valid"). split; reflexivity.
  - exists t. split; [exact E | exact Hkey].
Defined.

(** Without a seed phrase the private key is used, and the prefix [0x] is
    added when it is missing. *)
Lemma private_key_path_example :
  calls (snd (init_wallet (example_chain [] true true)
                (mkConfig EmptyString "ac0974bec39a17e3" "key") []))
  = [CFromKey "0xac0974bec39a17e3"].
Proof. reflexivity. Qed.

(** * Further properties *)

(** ** More on the ordering *)

Lemma lower_truthy (p q : string) : lower p = lower q -> str_truthy p = str_truthy q.
Proof. destruct p, q; simpl; intros E; try reflexivity; discriminate. Qed.

Lemma preferred_first_case (registry : list Contract) (p q : string) :
  lower p = lower q -> preferred_first registry p = preferred_first registry q.
Proof.
  intros E. induction registry as [|c rest IH]; simpl; [reflexivity|].
  unfold address_matches. rewrite E, IH. reflexivity.
Qed.

(** X1. The letter case of the preferred address does not matter. *)
Theorem contract_ordering_ignores_case (registry : list Contract) (p q : string) :
  lower p = lower q ->
  contract_ordering registry (Some p) = contract_ordering registry (Some q).
Proof.
  intros E. unfold contract_ordering.
  rewrite (lower_truthy p q E), (preferred_first_case registry p q E). reflexivity.
Qed.

Lemma contract_ordering_ignores_case_witness :
  contract_ordering CONTRACTS (Some "0X0B8ADD0D32EFAF79E6DB4C58CCA61D6EFBCCAA3D")
  = contract_ordering CONTRACTS (Some "0x0b8add0d32efaf79e6db4c58cca61d6efbccaa3d").
Proof. apply contract_ordering_ignores_case. reflexivity. Defined.

Lemma append_missing_members (registry acc : list Contract) :
  NoDup acc ->
  NoDup (append_missing registry acc)
  /\ (forall c, In c (append_missing registry acc) <-> In c acc \/ In c registry)
  /\ (exists rest, append_missing registry acc = acc ++ rest).
Proof.
  revert acc. induction registry as [|c rest IH]; intros acc Hnd; simpl.
  - split; [exact Hnd|]. split; [intros c; tauto|]. exists []. now rewrite app_nil_r.
  - destruct (contract_in c acc) eqn:E.
    + destruct (IH acc Hnd) as (H1 & H2 & H3). split; [exact H1|]. split; [|exact H3].
      intros x. rewrite H2. apply contract_in_In in E.
      split; [tauto|]. intros [H|[<-|H]]; auto.
    + assert (Hnd' : NoDup (acc ++ [c])).
      { apply contract_in_false in E. apply NoDup_app; auto.
        - repeat constructor. intros [].
        - intros x Hx [<-|[]]. contradiction. }
      destruct (IH _ Hnd') as (H1 & H2 & (r & H3)). split; [exact H1|]. split.
      * intros x. rewrite H2, in_app_iff. simpl. tauto.
      * exists (c :: r). rewrite H3, <- app_assoc. reflexivity.
Qed.

Lemma preferred_first_shape (registry : list Contract) (p : string) :
  preferred_first registry p = []
  \/ exists c, preferred_first registry p = [c] /\ In c registry
               /\ address_matches p c = true.
Proof.
  induction registry as [|c rest IH]; simpl; [now left|].
  destruct (address_matches p c) eqn:E.
  - right. exists c. auto.
  - destruct IH as [H|(c0 & H & Hin & Hm)]; [now left|].
    right. exists c0. auto.
Qed.

(** X2. For any list of contracts, repeated entries included, the ordering has
    no repeated entry, holds exactly the entries of the list, and is never
    longer than it. *)
Theorem contract_ordering_distinct (registry : list Contract) (preferred : option string) :
  NoDup (contract_ordering registry preferred)
  /\ (forall c, In c (contract_ordering registry preferred) <-> In c registry)
  /\ (List.length (contract_ordering registry preferred) <= List.length registry)%nat.
Proof.
  assert (H : exists acc, contract_ordering registry preferred = append_missing registry acc
                          /\ NoDup acc /\ forall c, In c acc -> In c registry).
  { unfold contract_ordering. destruct preferred as [p|].
    - destruct (str_truthy p).
      + destruct (preferred_first_shape registry p) as [E|(c & E & Hin & _)]; rewrite E.
        * exists []. repeat split; [constructor | intros c []].
        * exists [c]. repeat split; [repeat constructor; intros [] |].
          intros x [<-|[]]. exact Hin.
      + exists []. repeat split; [constructor | intros c []].
    - exists []. repeat split; [constructor | intros c []]. }
  destruct H as (acc & E & Hnd & Hsub). rewrite E.
  destruct (append_missing_members registry acc Hnd) as (H1 & H2 & _).
  split; [exact H1|]. split.
  - intros c. rewrite H2. split; [intros [H|H]; auto | auto].
  - apply NoDup_incl_length; [exact H1|]. intros c Hc. apply H2 in Hc.
    destruct Hc; auto.
Qed.

(** An example with a repeated entry: the repeat is dropped. *)
Lemma contract_ordering_drops_repeats :
  contract_ordering [Primary; Secondary; Primary] None = [Primary; Secondary].
Proof. reflexivity. Qed.

Lemma registry_wf_permutation (l l' : list Contract) :
  Permutation l' l -> registry_wf l -> registry_wf l'.
Proof.
  intros HP [Hnd HF]. split.
  - apply (Permutation_NoDup (Permutation_sym HP) Hnd).
  - apply (Permutation_Forall (Permutation_sym HP) HF).
Qed.

(** X3. Ordering an ordered list again with the same preference changes
    nothing. *)
Theorem contract_ordering_idempotent (registry : list Contract) (preferred : option string) :
  registry_wf registry ->
  contract_ordering (contract_ordering registry preferred) preferred
  = contract_ordering registry preferred.
Proof.
  intros Hwf.
  destruct (contract_ordering_permutation registry preferred Hwf) as [HP _].
  pose proof (registry_wf_permutation _ _ HP Hwf) as Hwf'.
  destruct (contract_ordering_cases registry preferred Hwf)
    as [[E Hno]|(p & c0 & pre & post & Ep & Er & Hm & Hpre & Eo)].
  - rewrite E.
    destruct (contract_ordering_cases registry preferred Hwf)
      as [[E' _]|(p & c0 & pre & post & Ep & Er & Hm & Hpre & Eo)]; [exact E'|].
    now rewrite E in Eo |- *.
  - rewrite Eo in Hwf' |- *.
    destruct (contract_ordering_cases (c0 :: pre ++ post) preferred Hwf')
      as [[E' Hno]|(p' & c1 & pre' & post' & Ep' & Er' & Hm' & Hpre' & Eo')].
    + exact E'.
    + rewrite Ep in Ep'. inversion Ep'; subst p'.
      destruct pre' as [|x pre'].
      * simpl in Er'. inversion Er'; subst. exact Eo'.
      * simpl in Er'. inversion Er'; subst x.
        rewrite (Hpre' c0 (or_introl eq_refl)) in Hm. discriminate.
Qed.

Lemma contract_ordering_idempotent_witness :
  contract_ordering
    (contract_ordering CONTRACTS (Some "0xf97A395850304b8ec9B8f9c80A17674886612065"))
    (Some "0xf97A395850304b8ec9B8f9c80A17674886612065")
  = [Tertiary; Primary; Secondary].
Proof.
  rewrite (contract_ordering_idempotent CONTRACTS _ CONTRACTS_wf). reflexivity.
Defined.

(** ** Sessions *)

Lemma lower_ascii_idempotent (a : ascii) : lower_ascii (lower_ascii a) = lower_ascii a.
Proof.
  destruct a as [[|] [|] [|] [|] [|] [|] [|] [|]]; reflexivity.
Qed.

Lemma lower_idempotent (s : string) : lower (lower s) = lower s.
Proof.
  induction s as [|a s IH]; simpl; [reflexivity|].
  now rewrite lower_ascii_idempotent, IH.
Qed.

Lemma sessions_get_set_same (k : string) (v : Session) (d : Sessions) :
  sessions_get k (sessions_set k v d) = Some v.
Proof.
  induction d as [|[k' v'] d IH]; simpl.
  - now rewrite String.eqb_refl.
  - destruct (String.eqb k' k) eqn:E; simpl.
    + now rewrite String.eqb_refl.
    + now rewrite E.
Qed.

Lemma sessions_get_set_other (k k0 : string) (v : Session) (d : Sessions) :
  k0 <> k -> sessions_get k0 (sessions_set k v d) = sessions_get k0 d.
Proof.
  intros Hne. induction d as [|[k' v'] d IH]; simpl.
  - destruct (String.eqb k k0) eqn:E; [|reflexivity].
    apply String.eqb_eq in E. congruence.
  - destruct (String.eqb k' k) eqn:E; simpl.
    + apply String.eqb_eq in E. subst k'.
      destruct (String.eqb k k0) eqn:E'; [|reflexivity].
      apply String.eqb_eq in E'. congruence.
    + now rewrite IH.
Qed.

Lemma sessions_set_keys (k : string) (v : Session) (d : Sessions) :
  sessions_get k d <> None -> map fst (sessions_set k v d) = map fst d.
Proof.
  induction d as [|[k' v'] d IH]; simpl; [congruence|].
  destruct (String.eqb k' k) eqn:E; simpl.
  - apply String.eqb_eq in E. now subst.
  - intros H. now rewrite IH.
Qed.

Lemma sessions_get_in_keys (k : string) (d : Sessions) :
  sessions_get k d <> None <-> In k (map fst d).
Proof.
  induction d as [|[k' v'] d IH]; simpl; [tauto|].
  destruct (String.eqb k' k) eqn:E.
  - apply String.eqb_eq in E. subst. split; [auto | congruence].
  - apply String.eqb_neq in E. rewrite IH. split; [auto | intros [H|H]; [congruence | auto]].
Qed.

Lemma sessions_set_new_keys (k : string) (v : Session) (d : Sessions) :
  sessions_get k d = None -> map fst (sessions_set k v d) = map fst d ++ [k].
Proof.
  induction d as [|[k' v'] d IH]; simpl; [reflexivity|].
  destruct (String.eqb k' k) eqn:E; [discriminate|].
  intros H. simpl. now rewrite IH.
Qed.

Lemma sessions_set_NoDup (k : string) (v : Session) (d : Sessions) :
  NoDup (map fst d) -> NoDup (map fst (sessions_set k v d)).
Proof.
  intros Hnd. destruct (sessions_get k d) eqn:E.
  - rewrite sessions_set_keys by congruence. exact Hnd.
  - rewrite sessions_set_new_keys by assumption.
    apply NoDup_app; auto.
    + repeat constructor. intros [].
    + intros x Hx [<-|[]]. apply sessions_get_in_keys in Hx. congruence.
Qed.

(** X4. After [start] the session of the wallet, looked up under the
    lower-cased address, is active with the time of the call, whatever was
    there before; a request without [walletAddress] starts a session under
    the empty key; the sessions of all other keys are untouched. *)
Theorem start_registers_session
  (walletAddress : option string) (now : PyFloat.float) (sessions : Sessions) :
  let after := fst (start walletAddress now sessions) in
  sessions_get (wallet_key walletAddress) after = Some (mkSession now true)
  /\ snd (start walletAddress now sessions) = (true, wallet_key walletAddress)
  /\ wallet_key None = EmptyString
  /\ (forall w, wallet_key (Some (lower w)) = wallet_key (Some w))
  /\ (forall k, k <> wallet_key walletAddress ->
        sessions_get k after = sessions_get k sessions)
  /\ (NoDup (map fst sessions) -> NoDup (map fst after)).
Proof.
  cbv zeta. unfold start. cbn [fst snd].
  split; [apply sessions_get_set_same|]. split; [reflexivity|].
  split; [reflexivity|]. split; [intros w; apply lower_idempotent|].
  split; [intros k Hk; now apply sessions_get_set_other | apply sessions_set_NoDup].
Qed.

(** X5. [stop] after [start], with the address written in any letter case,
    leaves the session inactive and keeps its start time. *)
Theorem stop_after_start
  (w w' : string) (now : PyFloat.float) (sessions : Sessions) :
  lower w' = lower w ->
  sessions_get (lower w)
    (fst (stop (Some w') (fst (start (Some w) now sessions))))
  = Some (mkSession now false).
Proof.
  intros E. unfold stop, start, wallet_key. cbn [fst]. rewrite E.
  rewrite sessions_get_set_same. cbn [fst s_start].
  apply sessions_get_set_same.
Qed.

Lemma stop_after_start_witness :
  sessions_get "0xabcdef"
    (fst (stop (Some "0XABCDEF") (fst (start (Some "0xAbCdEf") PyFloat.f1_5 []))))
  = Some (mkSession PyFloat.f1_5 false).
Proof. apply (stop_after_start "0xAbCdEf" "0XABCDEF"). reflexivity. Defined.

(** X6. [stop] for a wallet without a session changes nothing: no session
    is created.  In general [stop] keeps the keys and their order, keeps
    every start time, and leaves the sessions of the other keys as they
    were. *)
Theorem stop_keeps_sessions (walletAddress : option string) (sessions : Sessions) :
  let after := fst (stop walletAddress sessions) in
  (sessions_get (wallet_key walletAddress) sessions = None -> after = sessions)
  /\ map fst after = map fst sessions
  /\ (forall k, option_map s_start (sessions_get k after)
                = option_map s_start (sessions_get k sessions))
  /\ (forall k, k <> wallet_key walletAddress ->
        sessions_get k after = sessions_get k sessions)
  /\ snd (stop walletAddress sessions) = true.
Proof.
  cbv zeta. unfold stop.
  destruct (sessions_get (wallet_key walletAddress) sessions) as [s|] eqn:E; cbn [fst snd].
  - split; [discriminate|]. split; [apply sessions_set_keys; congruence|].
    split; [|split; [|reflexivity]].
    + intros k. destruct (string_dec k (wallet_key walletAddress)) as [->|Hne].
      * rewrite sessions_get_set_same, E. reflexivity.
      * now rewrite sessions_get_set_other.
    + intros k Hk. now apply sessions_get_set_other.
  - repeat split; reflexivity.
Qed.

Lemma stop_keeps_sessions_witness :
  fst (stop (Some "0xAbCdEf") [("0x123456", mkSession PyFloat.f1_5 true)])
  = [("0x123456", mkSession PyFloat.f1_5 true)].
Proof.
  apply (proj1 (stop_keeps_sessions (Some "0xAbCdEf")
                  [("0x123456", mkSession PyFloat.f1_5 true)])).
  reflexivity.
Defined.

Lemma sessions_set_set (k : string) (v v' : Session) (d : Sessions) :
  sessions_set k v' (sessions_set k v d) = sessions_set k v' d.
Proof.
  induction d as [|[k0 v0] d IH]; simpl.
  - now rewrite String.eqb_refl.
  - destruct (String.eqb k0 k) eqn:E; simpl.
    + now rewrite String.eqb_refl.
    + now rewrite E, IH.
Qed.

(** X7. Stopping twice is the same as stopping once. *)
Theorem stop_idempotent (walletAddress : option string) (sessions : Sessions) :
  stop walletAddress (fst (stop walletAddress sessions)) = stop walletAddress sessions.
Proof.
  unfold stop.
  destruct (sessions_get (wallet_key walletAddress) sessions) as [s|] eqn:E; cbn [fst].
  - rewrite sessions_get_set_same. cbn [s_start]. now rewrite sessions_set_set.
  - now rewrite E.
Qed.

(** ** Every run of the dispatcher *)

Lemma signed_then_sent_extend g a t b tx :
  signed_then_sent g t tx -> signed_then_sent g (a ++ t ++ b) tx.
Proof.
  intros (pre & post & ->). exists (a ++ pre), (post ++ b).
  rewrite <- !app_assoc. reflexivity.
Qed.

Lemma no_attempt_log_app a b :
  no_attempt_log (a ++ b) <-> no_attempt_log a /\ no_attempt_log b.
Proof.
  unfold no_attempt_log. split.
  - intros H. split; intros i c Hin; apply (H i c), in_or_app; auto.
  - intros [Ha Hb] i c Hin. apply in_app_or in Hin.
    destruct Hin as [Hin|Hin]; [exact (Ha i c Hin) | exact (Hb i c Hin)].
Qed.

Lemma no_attempt_log_call (c : Call) : no_attempt_log [ECall c].
Proof. intros i c' [Hin|[]]. discriminate Hin. Qed.

Lemma built_in_iteration_extend chain amount h a t b c tx :
  built_in_iteration chain amount (h ++ a) t c tx ->
  built_in_iteration chain amount h (a ++ t ++ b) c tx.
Proof.
  intros (index & pre & tm & mid & post & s & d & gp & -> & Hn & Hr & Hm & Ha & Hg & Hi).
  exists index, (a ++ pre), tm, mid, (post ++ b), s, d, gp.
  rewrite <- ?app_assoc in *. cbn [app] in *.
  repeat (split; [first [assumption | reflexivity]|]). assumption.
Qed.

Lemma signed_then_sent_built g t tx : signed_then_sent g t tx -> In tx (built t).
Proof.
  intros (pre & post & ->). rewrite built_app. apply in_or_app. right. left. reflexivity.
Qed.

Section EveryRun.

Variable chain : ChainClient.
Variable g : Globals.
Variable user_wallet : string.
Variable amount_requested : PyFloat.float.

Lemma try_mint_broadcasts c ctx h r t tx :
  try_mint chain g user_wallet c ctx h = (r, t) ->
  In tx (broadcasts t) ->
  tx_op tx = MINT
  /\ to_checksum_address chain user_wallet = Ok (tx_to tx)
  /\ tx_from tx = admin_address g
  /\ tx_gas tx = gas_limit (tx_op tx)
  /\ tx_contract tx = token_contract ctx
  /\ tx_amount tx = ctx_amount_in_wei ctx
  /\ inflated_gas_price (current_gas_price ctx) = Ok (tx_gasPrice tx)
  /\ signed_then_sent g t tx.
Proof.
  unfold try_mint, submit. unfold_monad.
  run_all; intros E; inversion E; subst; cbn; intros Hin;
    repeat (destruct Hin as [<-|Hin];
            [repeat (split; [first [reflexivity | assumption]|]);
             eexists (_ :: _ :: nil); eexists; reflexivity|]);
    destruct Hin.
Qed.

Lemma try_transfer_broadcasts c ctx h r t tx :
  try_transfer chain g user_wallet c ctx h = (r, t) ->
  In tx (broadcasts t) ->
  tx_op tx = TRANSFER
  /\ to_checksum_address chain user_wallet = Ok (tx_to tx)
  /\ tx_from tx = admin_address g
  /\ tx_gas tx = gas_limit (tx_op tx)
  /\ tx_contract tx = token_contract ctx
  /\ tx_amount tx = ctx_amount_in_wei ctx
  /\ inflated_gas_price (current_gas_price ctx) = Ok (tx_gasPrice tx)
  /\ signed_then_sent g t tx.
Proof.
  unfold try_transfer, submit. unfold_monad.
  run_all; intros E; inversion E; subst; cbn; intros Hin;
    repeat (destruct Hin as [<-|Hin];
            [repeat (split; [first [reflexivity | assumption]|]);
             eexists (_ :: _ :: _ :: nil); eexists; reflexivity|]);
    destruct Hin.
Qed.

(** The trace of an iteration, by stages. *)
Lemma attempt_contract_stages index c h r t :
  attempt_contract chain g user_wallet amount_requested index c h = (r, t) ->
  (exists e t0,
      prepare chain g amount_requested c (h ++ [ELog (LAttempt index c)]) = (Raise e, t0)
      /\ r = Ok None
      /\ t = [ELog (LAttempt index c)] ++ t0 ++ [ELog (LContractError index e)])
  \/ (exists ctx t0 r1 t1,
        prepare chain g amount_requested c (h ++ [ELog (LAttempt index c)]) = (Ok ctx, t0)
        /\ try_mint chain g user_wallet c ctx ((h ++ [ELog (LAttempt index c)]) ++ t0)
           = (Ok r1, t1)
        /\ ((exists o, r1 = Some o /\ r = Ok (Some o)
                       /\ t = [ELog (LAttempt index c)] ++ (t0 ++ t1) ++ [])
            \/ (exists t2,
                  r1 = None
                  /\ try_transfer chain g user_wallet c ctx
                       (((h ++ [ELog (LAttempt index c)]) ++ t0) ++ t1) = (r, t2)
                  /\ (exists r2, r = Ok r2)
                  /\ t = [ELog (LAttempt index c)] ++ (t0 ++ t1) ++ t2))).
Proof.
  rewrite attempt_contract_unfold. cbv zeta.
  destruct (prepare chain g amount_requested c (h ++ [ELog (LAttempt index c)]))
    as [[ctx|e] t0] eqn:Ep.
  - destruct (try_mint_total chain g user_wallet c ctx
                ((h ++ [ELog (LAttempt index c)]) ++ t0)) as (r1 & t1 & Em & _).
    rewrite Em. intros E. right. exists ctx, t0, r1, t1.
    split; [reflexivity|]. split; [exact Em|].
    destruct r1 as [o|].
    + inversion E; subst. left. exists o. rewrite app_nil_r. auto.
    + destruct (try_transfer_total chain g user_wallet c ctx
                  (((h ++ [ELog (LAttempt index c)]) ++ t0) ++ t1)) as (r2 & t2 & Et & _).
      rewrite Et in E. inversion E; subst. right. exists t2.
      split; [reflexivity|]. split; [exact Et|]. split; [eauto|].
      simpl. now rewrite app_assoc.
  - intros E; inversion E; subst. left. exists e, t0. auto.
Qed.

Lemma resolve_metadata_answer token h symbol decimals tm :
  resolve_metadata chain token h = (Ok (symbol, decimals), tm) ->
  metadata_answer chain token h symbol decimals /\ no_attempt_log tm.
Proof.
  unfold resolve_metadata. unfold_monad.
  run_all; intros E; inversion E; subst.
  all: split; [|intros i c' Hin; simpl in Hin; intuition discriminate].
  - left. auto.
  - right. split; [right; eauto | auto].
  - right. split; [left; eauto | auto].
Qed.

Lemma prepare_resolves c h ctx t0 :
  prepare chain g amount_requested c h = (Ok ctx, t0) ->
  exists tm,
    to_checksum_address chain (address c) = Ok (token_contract ctx)
    /\ resolve_metadata chain (token_contract ctx)
         (h ++ [ECall (CContract (token_contract ctx))])
       = (Ok (token_symbol ctx, token_decimals ctx), tm)
    /\ amount_in_wei amount_requested (token_decimals ctx) = Ok (ctx_amount_in_wei ctx)
    /\ gas_price chain (h ++ [ECall (CContract (token_contract ctx))] ++ tm)
       = Ok (current_gas_price ctx)
    /\ t0 = [ECall (CContract (token_contract ctx))] ++ tm
            ++ [ECall CGasPrice; ECall (CGetTransactionCount (admin_address g))].
Proof.
  unfold prepare. unfold_monad. rewrite ?app_nil_r.
  repeat (cbn -[Z.eqb PyFloat.mul PyFloat.of_int PyFloat.to_int inflated_gas_price
                amount_in_wei resolve_metadata] in *; inner_destruct);
    intros E; inversion E; subst;
    cbn [token_contract token_symbol token_decimals ctx_amount_in_wei current_gas_price].
  match goal with
  | H : gas_price chain _ = Ok _ |- _ => rewrite app_nil_r, <- app_assoc in H
  end.
  exists l. destruct a1 as [s d]. cbn [fst snd] in *.
  repeat (split; [first [assumption | reflexivity]|]). reflexivity.
Qed.

Lemma try_mint_builds c ctx h r t tx :
  try_mint chain g user_wallet c ctx h = (r, t) ->
  In tx (built t) ->
  to_checksum_address chain user_wallet = Ok (tx_to tx)
  /\ tx_from tx = admin_address g
  /\ tx_gas tx = gas_limit (tx_op tx)
  /\ tx_contract tx = token_contract ctx
  /\ tx_amount tx = ctx_amount_in_wei ctx
  /\ inflated_gas_price (current_gas_price ctx) = Ok (tx_gasPrice tx)
  /\ exists pre post, t = pre ++ [ECall (CBuildTransaction tx)] ++ post.
Proof.
  unfold try_mint, submit. unfold_monad.
  run_all; intros E; inversion E; subst; cbn; intros Hin;
    repeat (destruct Hin as [<-|Hin];
            [repeat (split; [first [reflexivity | assumption]|]);
             eexists (_ :: _ :: nil); eexists; reflexivity|]);
    destruct Hin.
Qed.

Lemma try_transfer_builds c ctx h r t tx :
  try_transfer chain g user_wallet c ctx h = (r, t) ->
  In tx (built t) ->
  to_checksum_address chain user_wallet = Ok (tx_to tx)
  /\ tx_from tx = admin_address g
  /\ tx_gas tx = gas_limit (tx_op tx)
  /\ tx_contract tx = token_contract ctx
  /\ tx_amount tx = ctx_amount_in_wei ctx
  /\ inflated_gas_price (current_gas_price ctx) = Ok (tx_gasPrice tx)
  /\ exists pre post, t = pre ++ [ECall (CBuildTransaction tx)] ++ post.
Proof.
  unfold try_transfer, submit. unfold_monad.
  run_all; intros E; inversion E; subst; cbn; intros Hin;
    repeat (destruct Hin as [<-|Hin];
            [repeat (split; [first [reflexivity | assumption]|]);
             eexists (_ :: _ :: _ :: nil); eexists; reflexivity|]);
    destruct Hin.
Qed.

Lemma try_mint_no_attempt_log c ctx h r t :
  try_mint chain g user_wallet c ctx h = (r, t) -> no_attempt_log t.
Proof.
  unfold try_mint, submit, no_attempt_log. unfold_monad.
  run_all; intros E; inversion E; subst; intros i c' Hin; simpl in Hin;
    repeat (destruct Hin as [Hin|Hin]; [discriminate Hin|]); destruct Hin.
Qed.

Lemma try_transfer_no_attempt_log c ctx h r t :
  try_transfer chain g user_wallet c ctx h = (r, t) -> no_attempt_log t.
Proof.
  unfold try_transfer, submit, no_attempt_log. unfold_monad.
  run_all; intros E; inversion E; subst; intros i c' Hin; simpl in Hin;
    repeat (destruct Hin as [Hin|Hin]; [discriminate Hin|]); destruct Hin.
Qed.
(** Every transaction an iteration builds is built from what the iteration
    resolved: the contract's checksummed address, the amount converted with
    the decimals of the metadata lookup, the gas price read and inflated. *)
Lemma attempt_contract_built index c h r t tx :
  attempt_contract chain g user_wallet amount_requested index c h = (r, t) ->
  In tx (built t) ->
  proper_tx chain g user_wallet c tx
  /\ built_in_iteration chain amount_requested h t c tx.
Proof.
  intros E Hin.
  destruct (attempt_contract_stages _ _ _ _ _ E)
    as [(e & t0 & Ep & _ & ->)|(ctx & t0 & r1 & t1 & Ep & Em & Hrest)].
  - destruct (prepare_quiet _ _ _ _ _ _ _ Ep) as (_ & _ & Hb).
    rewrite !built_app, Hb in Hin. destruct Hin.
  - destruct (prepare_quiet _ _ _ _ _ _ _ Ep) as (_ & _ & Hb).
    destruct (prepare_resolves _ _ _ _ Ep) as (tm & Hc & Hr & Ha & Hg & Ht0).
    destruct (resolve_metadata_answer _ _ _ _ _ Hr) as [Hans Hntm].
    pose proof (try_mint_no_attempt_log _ _ _ _ _ Em) as Hn1.
    assert (Hfin : forall mid post,
               t = [ELog (LAttempt index c); ECall (CContract (token_contract ctx))]
                     ++ tm ++ [ECall CGasPrice] ++ mid
                     ++ [ECall (CBuildTransaction tx)] ++ post ->
               no_attempt_log mid ->
               tx_contract tx = token_contract ctx ->
               tx_amount tx = ctx_amount_in_wei ctx ->
               inflated_gas_price (current_gas_price ctx) = Ok (tx_gasPrice tx) ->
               built_in_iteration chain amount_requested h t c tx).
    { intros mid post Ht Hnm H4 H5 H6.
      exists index, [], tm, mid, post, (token_symbol ctx), (token_decimals ctx),
        (current_gas_price ctx).
      rewrite H4, H5. rewrite <- ?app_assoc in *. cbn [app] in *.
      split; [exact Ht|]. split; [now apply no_attempt_log_app|].
      repeat (split; [assumption|]). assumption. }
    destruct Hrest as [(o & _ & _ & Ht)|(t2 & _ & Et & _ & Ht)].
    + assert (Hin1 : In tx (built t1)).
      { rewrite Ht, !built_app, Hb in Hin. cbn in Hin. now rewrite app_nil_r in Hin. }
      destruct (try_mint_builds _ _ _ _ _ _ Em Hin1)
        as (H1 & H2 & H3 & H4 & H5 & H6 & pre1 & post1 & Ht1).
      split; [unfold proper_tx; rewrite H4; auto|].
      apply (Hfin ([ECall (CGetTransactionCount (admin_address g))] ++ pre1) post1); auto.
      * rewrite Ht, Ht0, Ht1, <- ?app_assoc. cbn [app]. now rewrite ?app_nil_r.
      * rewrite Ht1 in Hn1. apply no_attempt_log_app in Hn1.
        apply no_attempt_log_app. split; [apply no_attempt_log_call | tauto].
    + assert (Hin1 : In tx (built t1) \/ In tx (built t2)).
      { rewrite Ht, !built_app, Hb in Hin. cbn in Hin. now apply in_app_or in Hin. }
      destruct Hin1 as [Hin1|Hin2].
      * destruct (try_mint_builds _ _ _ _ _ _ Em Hin1)
          as (H1 & H2 & H3 & H4 & H5 & H6 & pre1 & post1 & Ht1).
        split; [unfold proper_tx; rewrite H4; auto|].
        apply (Hfin ([ECall (CGetTransactionCount (admin_address g))] ++ pre1)
                 (post1 ++ t2)); auto.
        -- rewrite Ht, Ht0, Ht1, <- ?app_assoc. cbn [app]. reflexivity.
        -- rewrite Ht1 in Hn1. apply no_attempt_log_app in Hn1.
           apply no_attempt_log_app. split; [apply no_attempt_log_call | tauto].
      * destruct (try_transfer_builds _ _ _ _ _ _ Et Hin2)
          as (H1 & H2 & H3 & H4 & H5 & H6 & pre2 & post2 & Ht2).
        pose proof (try_transfer_no_attempt_log _ _ _ _ _ Et) as Hn2.
        split; [unfold proper_tx; rewrite H4; auto|].
        apply (Hfin ([ECall (CGetTransactionCount (admin_address g))] ++ t1 ++ pre2)
                 post2); auto.
        -- rewrite Ht, Ht0, Ht2, <- ?app_assoc. cbn [app]. reflexivity.
        -- rewrite Ht2 in Hn2. apply no_attempt_log_app in Hn2.
           apply no_attempt_log_app. split; [apply no_attempt_log_call|].
           apply no_attempt_log_app. tauto.
Qed.

Lemma dispatch_loop_built l h r t tx :
  dispatch_loop chain g user_wallet amount_requested l h = (r, t) ->
  In tx (built t) ->
  exists c, In c (map snd l)
            /\ proper_tx chain g user_wallet c tx
            /\ built_in_iteration chain amount_requested h t c tx.
Proof.
  revert h r t. induction l as [|[index c] rest IH]; intros h r t E Hin.
  - cbn in E. inversion E; subst. destruct Hin.
  - rewrite dispatch_loop_cons in E.
    destruct (attempt_contract chain g user_wallet amount_requested index c h)
      as [[[o|]|e] t1] eqn:Ea.
    + inversion E; subst.
      destruct (attempt_contract_built _ _ _ _ _ _ Ea Hin) as [H1 H2].
      exists c. simpl. auto.
    + destruct (dispatch_loop chain g user_wallet amount_requested rest (h ++ t1))
        as [r' t'] eqn:El.
      inversion E; subst. rewrite built_app in Hin. apply in_app_or in Hin.
      destruct Hin as [Hin|Hin].
      * destruct (attempt_contract_built _ _ _ _ _ _ Ea Hin) as [H1 H2].
        exists c. split; [simpl; auto|]. split; [exact H1|].
        apply (built_in_iteration_extend chain amount_requested h [] t1 t').
        now rewrite app_nil_r.
      * destruct (IH _ _ _ El Hin) as (c' & Hc' & H1 & H2).
        exists c'. split; [simpl; auto|]. split; [exact H1|].
        apply (built_in_iteration_extend chain amount_requested h t1 t' []) in H2.
        now rewrite app_nil_r in H2.
    + inversion E; subst.
      destruct (attempt_contract_built _ _ _ _ _ _ Ea Hin) as [H1 H2].
      exists c. simpl. auto.
Qed.

Lemma attempt_contract_broadcasts index c h r t tx :
  attempt_contract chain g user_wallet amount_requested index c h = (r, t) ->
  In tx (broadcasts t) ->
  signed_then_sent g t tx.
Proof.
  intros E Hin.
  destruct (attempt_contract_stages _ _ _ _ _ E)
    as [(e & t0 & Ep & _ & ->)|(ctx & t0 & r1 & t1 & Ep & Em & Hrest)].
  - destruct (prepare_quiet _ _ _ _ _ _ _ Ep) as (_ & Hb & _).
    rewrite !broadcasts_app, Hb in Hin. destruct Hin.
  - destruct (prepare_quiet _ _ _ _ _ _ _ Ep) as (_ & Hb & _).
    assert (Hmint : forall tx, In tx (broadcasts t1) -> signed_then_sent g t1 tx).
    { intros tx' H'. apply (try_mint_broadcasts _ _ _ _ _ _ Em H'). }
    destruct Hrest as [(o & _ & _ & ->)|(t2 & _ & Et & _ & ->)].
    + rewrite !broadcasts_app, Hb in Hin. cbn in Hin. rewrite app_nil_r in Hin.
      pose proof (Hmint tx Hin) as H2.
      apply (signed_then_sent_extend g [ELog (LAttempt index c)] (t0 ++ t1) []).
      apply (signed_then_sent_extend g t0 t1 []) in H2. now rewrite app_nil_r in H2.
    + rewrite !broadcasts_app, Hb in Hin. cbn in Hin. apply in_app_or in Hin.
      destruct Hin as [Hin|Hin].
      * pose proof (Hmint tx Hin) as H2.
        apply (signed_then_sent_extend g [ELog (LAttempt index c)] (t0 ++ t1) t2).
        apply (signed_then_sent_extend g t0 t1 []) in H2. now rewrite app_nil_r in H2.
      * destruct (try_transfer_broadcasts _ _ _ _ _ _ Et Hin)
          as (_ & _ & _ & _ & _ & _ & _ & H7).
        replace ([ELog (LAttempt index c)] ++ (t0 ++ t1) ++ t2)
          with (([ELog (LAttempt index c)] ++ t0 ++ t1) ++ t2 ++ [])
          by (rewrite app_nil_r, <- !app_assoc; reflexivity).
        now apply signed_then_sent_extend.
Qed.

Lemma dispatch_loop_broadcasts l h r t tx :
  dispatch_loop chain g user_wallet amount_requested l h = (r, t) ->
  In tx (broadcasts t) ->
  signed_then_sent g t tx.
Proof.
  revert h r t. induction l as [|[index c] rest IH]; intros h r t E Hin.
  - cbn in E. inversion E; subst. destruct Hin.
  - rewrite dispatch_loop_cons in E.
    destruct (attempt_contract chain g user_wallet amount_requested index c h)
      as [[[o|]|e] t1] eqn:Ea.
    + inversion E; subst. exact (attempt_contract_broadcasts _ _ _ _ _ _ Ea Hin).
    + destruct (dispatch_loop chain g user_wallet amount_requested rest (h ++ t1))
        as [r' t'] eqn:El.
      inversion E; subst. rewrite broadcasts_app in Hin. apply in_app_or in Hin.
      destruct Hin as [Hin|Hin].
      * apply (signed_then_sent_extend g [] t1 t').
        exact (attempt_contract_broadcasts _ _ _ _ _ _ Ea Hin).
      * pose proof (IH _ _ _ El Hin) as H2.
        apply (signed_then_sent_extend g t1 t' []) in H2. now rewrite app_nil_r in H2.
    + inversion E; subst. exact (attempt_contract_broadcasts _ _ _ _ _ _ Ea Hin).
Qed.

(** How a run of [process_withdrawal] that passes the checks is made. *)
Lemma process_withdrawal_run preferred h r t :
  process_withdrawal chain g user_wallet amount_requested preferred h = (r, t) ->
  (t = [] /\ exists e, r = Raise e)
  \/ (exists rl tl tail,
        dispatch_loop chain g user_wallet amount_requested
          (enumerate (contract_ordering CONTRACTS preferred))
          (h ++ [ELog (LProcessing amount_requested user_wallet)]) = (Ok rl, tl)
        /\ t = [ELog (LProcessing amount_requested user_wallet)] ++ tl ++ tail
        /\ ((exists o, rl = Some o /\ r = Ok o /\ tail = [])
            \/ (rl = None
                /\ r = Raise (HTTPException 500 "All withdrawal methods exhausted")
                /\ tail = [ELog LAllFailed]))).
Proof.
  destruct (signer_ready g) eqn:Hs.
  - destruct (is_address chain user_wallet) eqn:Ha.
    + destruct (PyFloat.le_zero amount_requested) eqn:Hz.
      * destruct (process_withdrawal_rejects chain g user_wallet amount_requested
                    preferred h (or_intror Hz)) as (e & E & _).
        rewrite E. intros E'; inversion E'; subst. left. eauto.
      * rewrite process_withdrawal_unfold by assumption. cbv zeta.
        destruct (dispatch_loop_total chain g user_wallet amount_requested
                    (enumerate (contract_ordering CONTRACTS preferred))
                    (h ++ [ELog (LProcessing amount_requested user_wallet)]))
          as (rl & tl & El).
        rewrite El. intros E. right. exists rl, tl.
        destruct rl as [o|]; inversion E; subst.
        -- exists []. rewrite app_nil_r. split; [reflexivity|]. split; [reflexivity|].
           left. exists o. auto.
        -- exists [ELog LAllFailed]. split; [reflexivity|]. split; [reflexivity|].
           right. auto.
    + destruct (process_withdrawal_rejects chain g user_wallet amount_requested
                  preferred h (or_introl Ha)) as (e & E & _).
      rewrite E. intros E'; inversion E'; subst. left. eauto.
  - unfold process_withdrawal, signer_ready in *.
    apply andb_false_iff in Hs.
    assert (Hn : negb (is_some (web3_instance g)) || negb (is_some (admin_account g)) = true).
    { destruct Hs as [-> | ->]; [reflexivity | apply orb_true_r]. }
    rewrite Hn. intros E; inversion E; subst. left. eauto.
Qed.

Lemma ordering_in_CONTRACTS preferred c :
  In c (map snd (enumerate (contract_ordering CONTRACTS preferred))) -> In c CONTRACTS.
Proof.
  rewrite map_snd_enumerate.
  destruct (contract_ordering_permutation CONTRACTS preferred CONTRACTS_wf) as [HP _].
  apply (Permutation_in c HP).
Qed.

(** Every transaction a run builds is built in an iteration on one of the
    three contracts, from what that iteration resolved. *)
Lemma process_withdrawal_built preferred h r t tx :
  process_withdrawal chain g user_wallet amount_requested preferred h = (r, t) ->
  In tx (built t) ->
  exists c, In c CONTRACTS
            /\ proper_tx chain g user_wallet c tx
            /\ built_in_iteration chain amount_requested h t c tx.
Proof.
  intros E Hin.
  destruct (process_withdrawal_run _ _ _ _ E)
    as [[-> _]|(rl & tl & tail & El & -> & Htail)]; [destruct Hin|].
  assert (Hin' : In tx (built tl)).
  { rewrite !built_app in Hin. cbn in Hin. apply in_app_or in Hin.
    destruct Hin as [Hin|Hin]; [exact Hin|].
    destruct Htail as [(o & _ & _ & ->)|(_ & _ & ->)]; destruct Hin. }
  destruct (dispatch_loop_built _ _ _ _ _ El Hin') as (c & Hc & Hp & Hb).
  exists c. split; [now apply (ordering_in_CONTRACTS preferred)|]. split; [exact Hp|].
  now apply built_in_iteration_extend.
Qed.

(** Where the node always gives the same decimals and the same gas price,
    these are the ones every transaction is built from. *)
Lemma built_in_iteration_steady h t c tx decimals gp :
  (forall h' token, exists symbol, call_symbol chain h' token = Ok symbol) ->
  (forall h' token, call_decimals chain h' token = Ok decimals) ->
  (forall h', gas_price chain h' = Ok gp) ->
  built_in_iteration chain amount_requested h t c tx ->
  amount_in_wei amount_requested decimals = Ok (tx_amount tx)
  /\ inflated_gas_price gp = Ok (tx_gasPrice tx).
Proof.
  intros Hs Hd Hg (index & pre & tm & mid & post & s & d & gp' & _ & _ & _ & Hm & Ha & Hg' & Hi).
  rewrite Hg in Hg'. inversion Hg'; subst gp'. split; [|exact Hi].
  destruct Hm as [[_ Hd']|[Hf _]].
  - rewrite Hd in Hd'. inversion Hd'; subst d. exact Ha.
  - destruct Hf as [(e & He)|(s' & e & _ & He)].
    + destruct (Hs (h ++ pre ++ [ELog (LAttempt index c); ECall (CContract (tx_contract tx))])
                  (tx_contract tx)) as (s' & Hs').
      rewrite Hs' in He. discriminate He.
    + rewrite Hd in He. discriminate He.
Qed.

(** X8. Whatever the chain does, every transaction [process_withdrawal]
    broadcasts was built, then signed with the admin key, then sent, in
    consecutive calls; it is addressed to the checksummed destination
    wallet, from the admin address, on one of the three contracts, with gas
    200000 for a mint and 100000 for a transfer; it was built in the
    iteration on that contract, its amount is the conversion of the
    requested amount with the decimals the metadata lookup of that
    iteration gave (the contract's answer, or 18 when the lookup failed),
    and its gas price is the gas price the node reported in that iteration,
    times 1.2 and truncated. *)
Theorem broadcasts_are_signed_and_addressed
  (preferred : option string) (h : History) (r : Result Outcome) (t : list Event)
  (tx : TxRequest) :
  process_withdrawal chain g user_wallet amount_requested preferred h = (r, t) ->
  In tx (broadcasts t) ->
  (exists c, In c CONTRACTS
             /\ proper_tx chain g user_wallet c tx
             /\ built_in_iteration chain amount_requested h t c tx)
  /\ signed_then_sent g t tx.
Proof.
  intros E Hin.
  assert (Hs : signed_then_sent g t tx).
  { destruct (process_withdrawal_run _ _ _ _ E)
      as [[-> _]|(rl & tl & tail & El & -> & Htail)]; [destruct Hin|].
    assert (Hin' : In tx (broadcasts tl)).
    { rewrite !broadcasts_app in Hin. cbn in Hin. apply in_app_or in Hin.
      destruct Hin as [Hin|Hin]; [exact Hin|].
      destruct Htail as [(o & _ & _ & ->)|(_ & _ & ->)]; destruct Hin. }
    apply signed_then_sent_extend. exact (dispatch_loop_broadcasts _ _ _ _ _ El Hin'). }
  split; [|exact Hs].
  exact (process_withdrawal_built _ _ _ _ _ E (signed_then_sent_built _ _ _ Hs)).
Qed.

End EveryRun.

(** ** The amount passed to the chain *)

(** C7 (amended).  The base-unit value is the amount times [10^decimals]
    truncated to an integer whenever the decimals are at most 22 and that
    exact product is itself a double.  The amount of every transaction built,
    in one iteration or in a whole run, is the conversion of the requested
    amount with the decimals the metadata lookup of its iteration gave: the
    answer of the contract's [decimals()] there, or 18 when the lookup
    failed.  In particular 1.5 gives 1500000000000000000 with 18 decimals
    and 1500000 with 6. *)
Theorem amount_in_wei_exact_for_doubles :
  (forall (amount : PyFloat.float) (d : N),
      (d <= 22)%N ->
      product_is_double amount d ->
      exists wei, exact_base_units amount d = Some wei
                  /\ amount_in_wei amount d = Ok wei)
  /\ (forall chain g user_wallet amount index c h r t tx,
        attempt_contract chain g user_wallet amount index c h = (r, t) ->
        In tx (built t) ->
        to_checksum_address chain (address c) = Ok (tx_contract tx)
        /\ built_in_iteration chain amount h t c tx)
  /\ (forall chain g user_wallet amount preferred h r t tx,
        process_withdrawal chain g user_wallet amount preferred h = (r, t) ->
        In tx (built t) ->
        exists c, In c CONTRACTS
                  /\ to_checksum_address chain (address c) = Ok (tx_contract tx)
                  /\ built_in_iteration chain amount h t c tx)
  /\ amount_in_wei PyFloat.f1_5 18 = Ok 1500000000000000000
  /\ amount_in_wei PyFloat.f1_5 6 = Ok 1500000.
Proof.
  split; [exact amount_in_wei_exact_product|].
  split.
  { intros chain g user_wallet amount index c h r t tx E Hin.
    destruct (attempt_contract_built chain g user_wallet amount _ _ _ _ _ _ E Hin)
      as [(_ & _ & _ & Hc) Hb].
    split; assumption. }
  split.
  { intros chain g user_wallet amount preferred h r t tx E Hin.
    destruct (process_withdrawal_built chain g user_wallet amount _ _ _ _ _ E Hin)
      as (c & Hc & (_ & _ & _ & Ha) & Hb).
    exists c. repeat split; assumption. }
  split; vm_compute; reflexivity.
Qed.



Section Bounds.

Variable chain : ChainClient.
Variable g : Globals.
Variable user_wallet : string.
Variable amount_requested : PyFloat.float.

Lemma attempt_contract_attempts index c h r t :
  attempt_contract chain g user_wallet amount_requested index c h = (r, t) ->
  (attempts t = [] \/ attempts t = [(c, MINT)] \/ attempts t = both c)
  /\ (List.length (broadcasts t) <= List.length (attempts t))%nat.
Proof.
  intros E.
  destruct (attempt_contract_stages _ _ _ _ _ _ _ _ _ E)
    as [(e & t0 & Ep & _ & ->)|(ctx & t0 & r1 & t1 & Ep & Em & Hrest)];
    destruct (prepare_quiet _ _ _ _ _ _ _ Ep) as (Ha & Hb & _).
  - rewrite !attempts_app, !broadcasts_app, Ha, Hb. cbn. auto.
  - destruct (try_mint_total chain g user_wallet c ctx
                ((h ++ [ELog (LAttempt index c)]) ++ t0)) as (r1' & t1' & Em' & Ha1 & Hb1 & _).
    rewrite Em in Em'. inversion Em'; subst r1' t1'.
    destruct Hrest as [(o & _ & _ & ->)|(t2 & _ & Et & _ & ->)].
    + rewrite !attempts_app, !broadcasts_app, Ha, Hb, Ha1. cbn. rewrite app_nil_r.
      split; [auto | lia].
    + destruct (try_transfer_total chain g user_wallet c ctx
                  (((h ++ [ELog (LAttempt index c)]) ++ t0) ++ t1))
        as (r2 & t2' & Et' & Ha2 & Hb2 & _).
      rewrite Et in Et'. inversion Et'; subst t2'.
      rewrite !attempts_app, !broadcasts_app, Ha, Hb, Ha1, Ha2. cbn.
      rewrite length_app. split; [auto | lia].
Qed.

Lemma dispatch_loop_attempts l h r t :
  NoDup (map snd l) ->
  dispatch_loop chain g user_wallet amount_requested l h = (r, t) ->
  NoDup (attempts t)
  /\ (forall x, In x (attempts t) -> In (fst x) (map snd l))
  /\ (List.length (attempts t) <= 2 * List.length l)%nat
  /\ (List.length (broadcasts t) <= List.length (attempts t))%nat.
Proof.
  revert h r t. induction l as [|[index c] rest IH]; intros h r t Hnd E.
  - cbn in E. inversion E; subst. cbn.
    repeat split; auto using NoDup_nil; try (intros x []).
  - simpl in Hnd. inversion Hnd as [|? ? Hc Hnd']; subst.
    rewrite dispatch_loop_cons in E.
    destruct (attempt_contract chain g user_wallet amount_requested index c h)
      as [[[o|]|e] t1] eqn:Ea;
      destruct (attempt_contract_attempts _ _ _ _ _ Ea) as [Hcases Hb].
    + inversion E; subst.
      assert (Hown : forall x, In x (attempts t) -> x = (c, MINT) \/ x = (c, TRANSFER)).
      { destruct Hcases as [H|[H|H]]; rewrite H; simpl; intros x Hx;
          intuition (subst; auto). }
      repeat split.
      * destruct Hcases as [H|[H|H]]; rewrite H; repeat constructor; simpl;
          intuition discriminate.
      * intros x Hx. destruct (Hown x Hx) as [-> | ->]; simpl; auto.
      * destruct Hcases as [H|[H|H]]; rewrite H; simpl; lia.
      * exact Hb.
    + destruct (dispatch_loop chain g user_wallet amount_requested rest (h ++ t1))
        as [r' t'] eqn:El.
      inversion E; subst.
      destruct (IH _ _ _ Hnd' El) as (H1 & H2 & H3 & H4).
      rewrite attempts_app, broadcasts_app, !length_app.
      assert (Hown : forall x, In x (attempts t1) -> fst x = c).
      { destruct Hcases as [H|[H|H]]; rewrite H; simpl; intros x Hx;
          intuition (subst; reflexivity). }
      repeat split.
      * apply NoDup_app; auto.
        -- destruct Hcases as [H|[H|H]]; rewrite H; repeat constructor; simpl;
             intuition discriminate.
        -- intros x Hx Hx'. apply Hc. rewrite <- (Hown x Hx). now apply H2.
      * intros x Hx. apply in_app_or in Hx. destruct Hx as [Hx|Hx].
        -- left. symmetry. now apply Hown.
        -- right. now apply H2.
      * assert (List.length (attempts t1) <= 2)%nat
          by (destruct Hcases as [H|[H|H]]; rewrite H; simpl; lia).
        simpl. lia.
      * lia.
    + inversion E; subst.
      destruct (attempt_contract_total chain g user_wallet amount_requested index c h)
        as (r0 & t0 & E0). rewrite Ea in E0. discriminate.
Qed.

(** X9. In every run, whatever the chain does, no operation is attempted
    twice on a contract: there are at most six attempts, at most one
    broadcast per attempt, hence at most six broadcasts. *)
Theorem dispatch_never_retries
  (preferred : option string) (h : History) (r : Result Outcome) (t : list Event) :
  process_withdrawal chain g user_wallet amount_requested preferred h = (r, t) ->
  NoDup (attempts t)
  /\ (forall c op, In (c, op) (attempts t) -> In c CONTRACTS)
  /\ (List.length (broadcasts t) <= List.length (attempts t))%nat
  /\ (List.length (attempts t) <= 6)%nat.
Proof.
  intros E.
  destruct (process_withdrawal_run _ _ _ _ _ _ _ _ E)
    as [[-> _]|(rl & tl & tail & El & -> & Htail)].
  - cbn. repeat split; auto using NoDup_nil; try (intros c op []); lia.
  - destruct (contract_ordering_permutation CONTRACTS preferred CONTRACTS_wf) as [HP Hnd].
    destruct (dispatch_loop_attempts _ _ _ _ ltac:(rewrite map_snd_enumerate; exact Hnd) El)
      as (H1 & H2 & H3 & H4).
    assert (Ea : attempts ([ELog (LProcessing amount_requested user_wallet)] ++ tl ++ tail)
                 = attempts tl).
    { rewrite !attempts_app.
      destruct Htail as [(o & _ & _ & ->)|(_ & _ & ->)]; cbn; now rewrite app_nil_r. }
    assert (Eb : broadcasts ([ELog (LProcessing amount_requested user_wallet)] ++ tl ++ tail)
                 = broadcasts tl).
    { rewrite !broadcasts_app.
      destruct Htail as [(o & _ & _ & ->)|(_ & _ & ->)]; cbn; now rewrite app_nil_r. }
    rewrite Ea, Eb. split; [exact H1|]. split; [|split; [exact H4|]].
    + intros c op Hin. apply (ordering_in_CONTRACTS preferred). apply (H2 _ Hin).
    + assert (Hl : List.length (enumerate (contract_ordering CONTRACTS preferred)) = 3%nat).
      { rewrite <- (length_map snd), map_snd_enumerate.
        now rewrite (Permutation_length HP). }
      lia.
Qed.

Lemma try_mint_confirmed c ctx h o t :
  try_mint chain g user_wallet c ctx h = (Ok (Some o), t) ->
  exists tx, broadcasts t = [tx] /\ tx_op tx = MINT /\ confirmed_by chain o tx
             /\ success o = true /\ symbol o = token_symbol ctx.
Proof.
  unfold try_mint, submit, confirmed_by. unfold_monad.
  run_all; intros E; inversion E; subst; cbn.
  eexists. split; [reflexivity|]. split; [reflexivity|].
  split; [|split; reflexivity].
  eexists. eexists. eexists. split; [eassumption|]. split; [eassumption|].
  split; [now apply Z.eqb_eq|]. auto.
Qed.

Lemma try_transfer_confirmed c ctx h o t :
  try_transfer chain g user_wallet c ctx h = (Ok (Some o), t) ->
  exists tx, broadcasts t = [tx] /\ tx_op tx = TRANSFER /\ confirmed_by chain o tx
             /\ success o = true /\ symbol o = token_symbol ctx.
Proof.
  unfold try_transfer, submit, confirmed_by. unfold_monad.
  run_all; intros E; inversion E; subst; cbn.
  eexists. split; [reflexivity|]. split; [reflexivity|].
  split; [|split; reflexivity].
  eexists. eexists. eexists. split; [eassumption|]. split; [eassumption|].
  split; [now apply Z.eqb_eq|]. auto.
Qed.

Lemma attempt_contract_confirmed index c h o t :
  attempt_contract chain g user_wallet amount_requested index c h = (Ok (Some o), t) ->
  exists tx sent_before,
    broadcasts t = sent_before ++ [tx] /\ confirmed_by chain o tx
    /\ success o = true /\ contract o = name c /\ contractAddress o = address c.
Proof.
  intros E.
  destruct (attempt_contract_stages _ _ _ _ _ _ _ _ _ E)
    as [(e & t0 & Ep & Hr & _)|(ctx & t0 & r1 & t1 & Ep & Em & Hrest)]; [discriminate|].
  destruct (prepare_quiet _ _ _ _ _ _ _ Ep) as (_ & Hb & _).
  destruct Hrest as [(o' & -> & Ho & ->)|(t2 & -> & Et & _ & ->)].
  - inversion Ho; subst o'.
    destruct (try_mint_confirmed _ _ _ _ _ Em) as (tx & Hbt & _ & Hc & Hs & _).
    destruct (try_mint_total chain g user_wallet c ctx
                ((h ++ [ELog (LAttempt index c)]) ++ t0)) as (r1' & t1' & Em' & _ & _ & Hf).
    rewrite Em in Em'. inversion Em'; subst r1' t1'.
    destruct (Hf o eq_refl) as (_ & _ & _ & Hn & Had).
    exists tx, []. rewrite !broadcasts_app, Hb, Hbt. cbn. auto.
  - destruct (try_transfer_confirmed _ _ _ _ _ Et) as (tx & Hbt & _ & Hc & Hs & _).
    destruct (try_transfer_total chain g user_wallet c ctx
                (((h ++ [ELog (LAttempt index c)]) ++ t0) ++ t1))
      as (r2' & t2' & Et' & _ & _ & Hf).
    rewrite Et in Et'. inversion Et'; subst r2' t2'.
    destruct (Hf o eq_refl) as (_ & _ & _ & Hn & Had).
    exists tx, (broadcasts t1). rewrite !broadcasts_app, Hb, Hbt. cbn. auto.
Qed.

Lemma dispatch_loop_confirmed l h o t :
  dispatch_loop chain g user_wallet amount_requested l h = (Ok (Some o), t) ->
  exists c tx sent_before,
    In c (map snd l)
    /\ broadcasts t = sent_before ++ [tx] /\ confirmed_by chain o tx
    /\ success o = true /\ contract o = name c /\ contractAddress o = address c.
Proof.
  revert h t. induction l as [|[index c] rest IH]; intros h t E.
  - cbn in E. discriminate.
  - rewrite dispatch_loop_cons in E.
    destruct (attempt_contract chain g user_wallet amount_requested index c h)
      as [[[o'|]|e] t1] eqn:Ea.
    + inversion E; subst.
      destruct (attempt_contract_confirmed _ _ _ _ _ Ea) as (tx & pre & H).
      exists c, tx, pre. simpl. tauto.
    + destruct (dispatch_loop chain g user_wallet amount_requested rest (h ++ t1))
        as [r' t'] eqn:El.
      inversion E; subst.
      destruct (IH _ _ El) as (c' & tx & pre & Hc & Hb & H).
      exists c', tx, (broadcasts t1 ++ pre). rewrite broadcasts_app, Hb, app_assoc.
      simpl. tauto.
    + discriminate.
Qed.

(** X10. Success is never reported without a receipt: when
    [process_withdrawal] returns an outcome, the last transaction it
    broadcast got the reported hash from the node and a receipt with status 1
    whose block number and gas are the ones reported; the outcome has
    [success] set and names one of the three contracts by name and
    address. *)
Theorem success_is_backed_by_receipt
  (preferred : option string) (h : History) (o : Outcome) (t : list Event) :
  process_withdrawal chain g user_wallet amount_requested preferred h = (Ok o, t) ->
  exists c tx sent_before,
    In c CONTRACTS
    /\ broadcasts t = sent_before ++ [tx]
    /\ confirmed_by chain o tx
    /\ success o = true /\ contract o = name c /\ contractAddress o = address c.
Proof.
  intros E.
  destruct (process_withdrawal_run _ _ _ _ _ _ _ _ E)
    as [[_ (e & He)]|(rl & tl & tail & El & -> & Htail)]; [discriminate|].
  destruct Htail as [(o' & -> & Ho & ->)|(_ & Hr & _)]; [|discriminate].
  inversion Ho; subst o'.
  destruct (dispatch_loop_confirmed _ _ _ _ El) as (c & tx & pre & Hc & Hb & H).
  exists c, tx, pre. split; [now apply (ordering_in_CONTRACTS preferred)|].
  rewrite !broadcasts_app, Hb. cbn. rewrite app_nil_r. tauto.
Qed.

Lemma attempt_contract_never_prepared index c h :
  never_prepared chain g amount_requested ->
  exists t,
    attempt_contract chain g user_wallet amount_requested index c h = (Ok None, t)
    /\ attempts t = [] /\ broadcasts t = [] /\ built t = [].
Proof.
  intros Hn. rewrite attempt_contract_unfold. cbv zeta.
  destruct (Hn c (h ++ [ELog (LAttempt index c)])) as (e & t0 & Ep). rewrite Ep.
  destruct (prepare_quiet _ _ _ _ _ _ _ Ep) as (Ha & Hb & Hc).
  eexists. split; [reflexivity|]. cbn.
  rewrite attempts_app, broadcasts_app, built_app, Ha, Hb, Hc. auto.
Qed.

Lemma dispatch_loop_never_prepared l h :
  never_prepared chain g amount_requested ->
  exists t,
    dispatch_loop chain g user_wallet amount_requested l h = (Ok None, t)
    /\ attempts t = [] /\ broadcasts t = [] /\ built t = [].
Proof.
  intros Hn. revert h. induction l as [|[index c] rest IH]; intros h.
  - exists []. auto.
  - rewrite dispatch_loop_cons.
    destruct (attempt_contract_never_prepared index c h Hn) as (t1 & E1 & Ha & Hb & Hc).
    rewrite E1. destruct (IH (h ++ t1)) as (t' & E' & Ha' & Hb' & Hc'). rewrite E'.
    exists (t1 ++ t'). rewrite attempts_app, broadcasts_app, built_app, Ha, Hb, Hc. auto.
Qed.

Lemma process_withdrawal_never_prepared preferred h :
  signer_ready g = true ->
  is_address chain user_wallet = true ->
  PyFloat.le_zero amount_requested = false ->
  never_prepared chain g amount_requested ->
  exists t,
    process_withdrawal chain g user_wallet amount_requested preferred h
    = (Raise (HTTPException 500 "All withdrawal methods exhausted"), t)
    /\ attempts t = [] /\ broadcasts t = [] /\ built t = [].
Proof.
  intros Hs Ha Hz Hn. rewrite process_withdrawal_unfold by assumption. cbv zeta.
  destruct (dispatch_loop_never_prepared
              (enumerate (contract_ordering CONTRACTS preferred))
              (h ++ [ELog (LProcessing amount_requested user_wallet)]) Hn)
    as (t & E & H1 & H2 & H3).
  rewrite E. eexists. split; [reflexivity|]. cbn.
  rewrite attempts_app, broadcasts_app, built_app, H1, H2, H3. auto.
Qed.

(** X11. When the gas price cannot be read, or the transaction count of the
    signer cannot, no operation is attempted on any contract and nothing is
    built or broadcast; the dispatch ends in the exhaustion error. *)
Theorem unreadable_chain_state_sends_nothing (preferred : option string) (h : History) :
  signer_ready g = true ->
  is_address chain user_wallet = true ->
  PyFloat.le_zero amount_requested = false ->
  (forall h', exists e, gas_price chain h' = Raise e)
  \/ (forall h', exists e, get_transaction_count chain h' (admin_address g) = Raise e) ->
  exists t,
    process_withdrawal chain g user_wallet amount_requested preferred h
    = (Raise (HTTPException 500 "All withdrawal methods exhausted"), t)
    /\ attempts t = [] /\ broadcasts t = [] /\ built t = [].
Proof.
  intros Hs Ha Hz Hbad. apply process_withdrawal_never_prepared; try assumption.
  intros c h'. unfold prepare, resolve_metadata. unfold_monad.
  destruct Hbad as [Hg|Hn].
  - run_all; try (eexists; eexists; reflexivity).
    all: match goal with
         | H : gas_price chain ?x = Ok _ |- _ =>
             destruct (Hg x) as (e' & He'); rewrite He' in H; discriminate
         end.
  - run_all; try (eexists; eexists; reflexivity).
    all: match goal with
         | H : get_transaction_count chain ?x _ = Ok _ |- _ =>
             destruct (Hn x) as (e' & He'); rewrite He' in H; discriminate
         end.
Qed.

End Bounds.

(** ** Amounts that are not numbers *)

Lemma amount_in_wei_nonfinite (amount : PyFloat.float) (decimals : N) :
  amount = S754_nan \/ amount = S754_infinity false ->
  exists e, amount_in_wei amount decimals = Raise e.
Proof.
  intros H. unfold amount_in_wei, PyFloat.mul_int.
  destruct (PyFloat.of_int (10 ^ Z.of_N decimals)) as [y|e]; [|eauto].
  destruct H as [-> | ->]; destruct y as [[|]|[|]| |[|] m e]; cbn; eauto.
Qed.

Lemma nonfinite_never_prepared chain g (x : PyFloat.float) :
  x = S754_nan \/ x = S754_infinity false ->
  never_prepared chain g x.
Proof.
  intros H c h. unfold prepare, resolve_metadata. unfold_monad.
  run_all; try (eexists; eexists; reflexivity).
  all: match goal with
       | E : amount_in_wei ?a ?d = Ok _ |- _ =>
           destruct (amount_in_wei_nonfinite a d H) as (e' & He');
           rewrite He' in E; discriminate E
       end.
Qed.

(** X12. An amount that [float] rejects leaves the endpoint as the raw
    exception, before anything is logged or called.  An amount that is NaN
    or plus infinity is not caught by either positivity check: the
    dispatcher contacts the contracts, attempts nothing, broadcasts nothing
    and ends in the exhaustion error, and the endpoint answers 500 rather
    than 400. *)
Theorem invalid_amounts_are_not_400
  (chain : ChainClient) (g : Globals) (user_wallet : string) (h : History) :
  (forall data e,
      amount data = AmountRejected e ->
      withdraw_endpoint chain g true data h = (Raise e, []))
  /\ (forall amount preferred,
        amount = S754_nan \/ amount = S754_infinity false ->
        PyFloat.le_zero amount = false
        /\ (signer_ready g = true -> is_address chain user_wallet = true ->
            exists t,
              process_withdrawal chain g user_wallet amount preferred h
              = (Raise (HTTPException 500 "All withdrawal methods exhausted"), t)
              /\ attempts t = [] /\ broadcasts t = [] /\ built t = [])
        /\ (str_truthy user_wallet = true ->
            forall symbol_hint,
              response_status
                (fst (withdraw_endpoint chain g true
                        (mkData (Some user_wallet) (AmountValue amount) preferred
                           symbol_hint) h)) = 500)).
Proof.
  split.
  - intros data e E. unfold withdraw_endpoint. unfold_monad. rewrite E. reflexivity.
  - intros amount preferred Hnf.
    assert (Hz : PyFloat.le_zero amount = false) by (destruct Hnf as [-> | ->]; reflexivity).
    split; [exact Hz|]. split.
    + intros Hs Ha. apply process_withdrawal_never_prepared; try assumption.
      now apply nonfinite_never_prepared.
    + intros Ht symbol_hint.
      rewrite (withdraw_endpoint_unfold chain g
               (mkData (Some user_wallet) (AmountValue amount) preferred symbol_hint)
               h amount user_wallet eq_refl eq_refl Ht Hz).
      cbv zeta. cbn [tokenAddress].
      destruct (process_withdrawal chain g user_wallet amount preferred
                  (h ++ [ELog (LWithdrawalRequest amount user_wallet)])) as [[o|e] t] eqn:E;
        [|reflexivity].
      exfalso.
      destruct (process_withdrawal_run _ _ _ _ _ _ _ _ E)
        as [[_ (e & He)]|(rl & tl & tail & El & _ & Htail)]; [discriminate|].
      destruct Htail as [(o' & -> & _)|(_ & Hr & _)]; [|discriminate].
      destruct (dispatch_loop_never_prepared chain g user_wallet amount
                  (enumerate (contract_ordering CONTRACTS preferred))
                  (h ++ [ELog (LWithdrawalRequest amount user_wallet)]
                     ++ [ELog (LProcessing amount user_wallet)])
                  (nonfinite_never_prepared chain g amount Hnf)) as (t' & E' & _).
      rewrite <- app_assoc in El. rewrite El in E'. discriminate.
Qed.

(** ** Initialisation, continued *)

Section InitMore.

Variable chain : ChainClient.

(** X13. [init_web3] never raises: every failure of a collaborator ends in
    a returned [True] or [False]. *)
Theorem init_web3_never_raises (cfg : Config) (h : History) :
  exists ready g t, init_web3 chain cfg h = (Ok (ready, g), t).
Proof.
  unfold init_web3, init_wallet, check_balance. unfold_monad.
  run_all; eexists; eexists; eexists; reflexivity.
Qed.

Lemma prefix_0x (s : string) : String.prefix "0x" ("0x" ++ s)%string = true.
Proof. destruct s; reflexivity. Qed.

(** X14. The key handed to [Account.from_key] always starts with [0x]: a
    configured key that has the prefix is passed as it is, one without it
    gets the prefix; when [init_web3] succeeds on that path,
    [admin_private_key] is the key that was passed. *)
Theorem private_key_gets_prefix (cfg : Config) (h : History)
  (r : Result (bool * Globals)) (t : list Event) (key : string) :
  init_web3 chain cfg h = (r, t) ->
  In (CFromKey key) (calls t) ->
  String.prefix "0x" key = true
  /\ (String.prefix "0x" (ADMIN_PRIVATE_KEY cfg) = true -> key = ADMIN_PRIVATE_KEY cfg)
  /\ (String.prefix "0x" (ADMIN_PRIVATE_KEY cfg) = false ->
      key = ("0x" ++ ADMIN_PRIVATE_KEY cfg)%string)
  /\ (forall g, r = Ok (true, g) -> admin_private_key g = Some key).
Proof.
  unfold init_web3, init_wallet, check_balance. unfold_monad.
  run_all; intros E Hin; inversion E; subst; cbn in Hin;
    repeat (destruct Hin as [Hin|Hin]; [try discriminate; inversion Hin; subst|]);
    try (destruct Hin);
    (split; [first [assumption | apply prefix_0x]|]);
    (split; [intros Hp; first [reflexivity | congruence]|]);
    (split; [intros Hp; first [reflexivity | congruence]|]);
    intros g' Eg; inversion Eg; subst; reflexivity.
Qed.

(** X15. The balance check has no say: whatever [get_balance] answers, or
    raises, [init_web3] returns the same value and leaves the same
    globals. *)
Theorem balance_check_does_not_decide (cfg : Config) (h : History)
  (balance : History -> option string -> Result Z) :
  fst (init_web3 (with_get_balance chain balance) cfg h) = fst (init_web3 chain cfg h).
Proof.
  unfold init_web3, init_wallet, check_balance, with_get_balance. unfold_monad.
  run_all; reflexivity.
Qed.

(** X16. Once [init_web3] has got as far as asking whether the node is
    connected, the signer and the [web3_instance] stay assigned whatever
    the answer: after a [False] the globals alone would let the dispatcher
    proceed, and it is the [web3_ready] check of the endpoint that refuses
    every request with 503, without a call. *)
Theorem failed_connection_keeps_globals (cfg : Config) (h : History)
  (ready : bool) (g : Globals) (t : list Event) :
  init_web3 chain cfg h = (Ok (ready, g), t) ->
  In CIsConnected (calls t) ->
  signer_ready g = true
  /\ (ready = false ->
      forall data h',
        withdraw_endpoint chain g ready data h'
        = (Raise (HTTPException 503 "Backend not connected to blockchain"), [])).
Proof.
  intros E Hin. split; [|intros ->; reflexivity].
  revert E Hin.
  unfold init_web3, init_wallet, check_balance, signer_ready. unfold_monad.
  run_all; intros E Hin; inversion E; subst; cbn in Hin |- *;
    try reflexivity;
    repeat (destruct Hin as [Hin|Hin]; [discriminate|]); destruct Hin.
Qed.

(** X17. [wallet_source] names the path [init_web3] takes: a seed phrase is
    derived only under [seed_phrase], a key is loaded only under
    [private_key], and under [none] nothing is called and [False] is
    returned with no signer.  It reports the configuration, not the result:
    it reads [seed_phrase] also when the derivation failed. *)
Theorem wallet_source_names_the_path (cfg : Config) (h : History)
  (r : Result (bool * Globals)) (t : list Event) :
  init_web3 chain cfg h = (r, t) ->
  (forall phrase, In (CFromMnemonic phrase) (calls t) ->
     wallet_source cfg = "seed_phrase" /\ phrase = ADMIN_SEED_PHRASE cfg)
  /\ (forall key, In (CFromKey key) (calls t) -> wallet_source cfg = "private_key")
  /\ (wallet_source cfg = "none" -> r = Ok (false, no_globals) /\ calls t = [])
  /\ (str_truthy (ADMIN_SEED_PHRASE cfg) = true -> wallet_source cfg = "seed_phrase").
Proof.
  unfold init_web3, init_wallet, check_balance, wallet_source. unfold_monad.
  run_all; intros E; inversion E; subst; cbn;
    (split; [intros phrase Hin;
             repeat (destruct Hin as [Hin|Hin];
                     [try discriminate; inversion Hin; subst; split; reflexivity|]);
             destruct Hin|]);
    (split; [intros key Hin;
             repeat (destruct Hin as [Hin|Hin];
                     [try discriminate; inversion Hin; subst; reflexivity|]);
             destruct Hin|]);
    (split; [intros Hn; first [discriminate | split; reflexivity]|]);
    intros Hs; first [reflexivity | discriminate].
Qed.

End InitMore.

(** ** Status endpoints *)

(** X18. [GET /] always answers: it asks for the balance at most once, and
    only when both the signer address and the connection are there; when
    that call or the conversion of its answer fails, the balance is simply
    left out. *)
Theorem root_always_answers
  (chain : ChainClient) (from_wei : Z -> Result PyFloat.float) (cfg : Config)
  (g : Globals) (web3_ready : bool) (h : History) :
  exists resp t,
    root chain from_wei cfg g web3_ready h = (Ok resp, t)
    /\ (t = [] \/ t = [ECall (CGetBalance (admin_address g))])
    /\ (opt_truthy (admin_address g) && is_some (web3_instance g) = false ->
        t = [] /\ root_admin_eth_balance resp = None)
    /\ (forall eth, root_admin_eth_balance resp = Some eth ->
        exists bal, get_balance chain h (admin_address g) = Ok bal
                    /\ from_wei bal = Ok eth)
    /\ root_web3_ready resp = web3_ready
    /\ root_admin_wallet resp = admin_address g
    /\ root_total resp = List.length (root_contracts resp).
Proof.
  unfold root. unfold_monad.
  destruct (opt_truthy (admin_address g) && is_some (web3_instance g)) eqn:Hc.
  - run_all; eexists; eexists; (split; [reflexivity|]); cbn;
      (split; [auto|]); (split; [discriminate|]);
      (split; [intros eth Eeth; inversion Eeth; subst; eauto|]); auto.
  - cbn. eexists. eexists. split; [reflexivity|]. cbn.
    repeat split; auto. intros eth Eeth. discriminate.
Qed.

Lemma root_always_answers_witness :
  exists resp,
    root (example_chain [] true true) (fun _ => Raise (ValueError "from_wei"))
      example_config no_globals false [] = (Ok resp, [])
    /\ root_admin_eth_balance resp = None.
Proof.
  destruct (root_always_answers (example_chain [] true true)
              (fun _ => Raise (ValueError "from_wei")) example_config no_globals false [])
    as (resp & t & E & _ & H & _).
  destruct (H eq_refl) as [-> Hb]. exists resp. split; assumption.
Defined.

Lemma init_web3_seed_failure (chain : ChainClient) (cfg : Config) (h : History) :
  str_truthy (ADMIN_SEED_PHRASE cfg) = true ->
  derivation_fails chain (ADMIN_SEED_PHRASE cfg) h ->
  exists t, init_web3 chain cfg h = (Ok (false, no_globals), t).
Proof.
  intros Hs Hd. unfold init_web3, init_wallet. rewrite Hs. unfold_monad.
  destruct Hd as [(e & E1)|(e & E1 & E2)].
  - rewrite E1. cbn. eexists. reflexivity.
  - rewrite E1. cbn. rewrite E2. cbn. eexists. reflexivity.
Qed.

(** X19. [GET /api/health] asks the node only when a [web3_instance]
    exists and otherwise reports it as not connected; unlike [GET /] it has
    no handler, so an exception of [is_connected] is the answer;
    [admin_configured] tells whether a signer was loaded: after a failed
    derivation from the seed phrase it is [False], the node is reported as
    not connected without being asked, and [wallet_source] still reads
    [seed_phrase]. *)
Theorem health_reports_state
  (chain : ChainClient) (cfg : Config) (g : Globals) (h : History) :
  (web3_instance g = None ->
   health chain cfg g h
   = (Ok (mkHealth false (is_some (admin_account g)) (wallet_source cfg) CONTRACTS 3), []))
  /\ (forall w e, web3_instance g = Some w -> is_connected chain h = Raise e ->
        health chain cfg g h = (Raise e, [ECall CIsConnected]))
  /\ (forall w connected, web3_instance g = Some w -> is_connected chain h = Ok connected ->
        exists resp, health chain cfg g h = (Ok resp, [ECall CIsConnected])
                     /\ web3_connected resp = connected
                     /\ admin_configured resp = is_some (admin_account g))
  /\ (str_truthy (ADMIN_SEED_PHRASE cfg) = true ->
      derivation_fails chain (ADMIN_SEED_PHRASE cfg) h ->
      exists t g' resp,
        init_web3 chain cfg h = (Ok (false, g'), t)
        /\ health chain cfg g' (h ++ t) = (Ok resp, [])
        /\ admin_configured resp = false
        /\ web3_connected resp = false
        /\ health_wallet_source resp = "seed_phrase").
Proof.
  split; [|split; [|split]].
  - unfold health. unfold_monad. intros ->. reflexivity.
  - unfold health. unfold_monad. intros w e -> E. rewrite E. reflexivity.
  - unfold health. unfold_monad. intros w connected -> E. rewrite E.
    eexists. split; [reflexivity|]. auto.
  - intros Hs Hd. destruct (init_web3_seed_failure chain cfg h Hs Hd) as (t & E).
    exists t, no_globals. eexists. split; [exact E|]. split; [reflexivity|]. cbn.
    unfold wallet_source. rewrite Hs. auto.
Qed.

Lemma health_reports_state_witness :
  health (example_chain [] true false) example_config no_globals []
  = (Ok (mkHealth false false "seed_phrase" CONTRACTS 3), []).
Proof.
  apply (proj1 (health_reports_state (example_chain [] true false) example_config
                  no_globals [])).
  reflexivity.
Defined.

(** ** Examples for the properties above *)

Lemma start_registers_session_witness :
  sessions_get "0xabcdef"
    (fst (start (Some "0xAbCdEf") PyFloat.f1_5 [("0x123456", mkSession PyFloat.f1_5 false)]))
  = Some (mkSession PyFloat.f1_5 true)
  /\ sessions_get "0x123456"
       (fst (start (Some "0xAbCdEf") PyFloat.f1_5
               [("0x123456", mkSession PyFloat.f1_5 false)]))
     = Some (mkSession PyFloat.f1_5 false).
Proof.
  destruct (start_registers_session (Some "0xAbCdEf") PyFloat.f1_5
              [("0x123456", mkSession PyFloat.f1_5 false)]) as (H1 & _ & _ & _ & H5 & _).
  split; [exact H1|]. rewrite H5; [reflexivity | discriminate].
Defined.

Lemma example_run_eq :
  process_withdrawal (example_chain third_only true true) example_globals example_wallet
    PyFloat.f1_5 None [] = (fst example_run, snd example_run).
Proof. vm_compute. reflexivity. Qed.

Lemma example_transfer_sent : In example_transfer_tx (broadcasts (snd example_run)).
Proof. vm_compute. repeat (first [left; reflexivity | right]). Qed.

Lemma example_transfer_built : In example_transfer_tx (built (snd example_run)).
Proof. vm_compute. repeat (first [left; reflexivity | right]). Qed.

Lemma broadcasts_are_signed_and_addressed_witness :
  (exists c,
      In c CONTRACTS
      /\ proper_tx (example_chain third_only true true) example_globals example_wallet
           c example_transfer_tx
      /\ built_in_iteration (example_chain third_only true true) PyFloat.f1_5 []
           (snd example_run) c example_transfer_tx)
  /\ signed_then_sent example_globals (snd example_run) example_transfer_tx.
Proof.
  exact (broadcasts_are_signed_and_addressed (example_chain third_only true true)
           example_globals example_wallet PyFloat.f1_5 None [] _ _ _
           example_run_eq example_transfer_sent).
Defined.

Lemma amount_in_wei_exact_for_doubles_witness :
  (exists wei,
      exact_base_units PyFloat.f1_5 18 = Some wei /\ amount_in_wei PyFloat.f1_5 18 = Ok wei)
  /\ (exists c,
        In c CONTRACTS
        /\ to_checksum_address (example_chain third_only true true) (address c)
           = Ok (tx_contract example_transfer_tx)
        /\ built_in_iteration (example_chain third_only true true) PyFloat.f1_5 []
             (snd example_run) c example_transfer_tx).
Proof.
  destruct amount_in_wei_exact_for_doubles as (H1 & _ & H3 & _).
  split.
  - apply (H1 PyFloat.f1_5 18%N).
    + vm_compute. discriminate.
    + exists 5859375000000000%positive, 8. split; vm_compute; reflexivity.
  - exact (H3 (example_chain third_only true true) example_globals example_wallet
             PyFloat.f1_5 None [] _ _ example_transfer_tx
             example_run_eq example_transfer_built).
Defined.

Lemma dispatch_never_retries_witness :
  NoDup (attempts (snd example_run))
  /\ (List.length (broadcasts (snd example_run)) <= List.length (attempts (snd example_run)))%nat
  /\ List.length (attempts (snd example_run)) = 6%nat.
Proof.
  destruct (dispatch_never_retries (example_chain third_only true true) example_globals
              example_wallet PyFloat.f1_5 None [] _ _ example_run_eq) as (H1 & _ & H3 & _).
  split; [exact H1|]. split; [exact H3 | reflexivity].
Defined.

Lemma success_is_backed_by_receipt_witness :
  exists o c tx sent_before,
    fst example_run = Ok o
    /\ In c CONTRACTS
    /\ broadcasts (snd example_run) = sent_before ++ [tx]
    /\ confirmed_by (example_chain third_only true true) o tx
    /\ contract o = name c.
Proof.
  assert (E : exists o, fst example_run = Ok o) by (eexists; reflexivity).
  destruct E as (o & E). pose proof example_run_eq as Er. rewrite E in Er.
  destruct (success_is_backed_by_receipt _ _ _ _ _ _ _ _ Er)
    as (c & tx & pre & Hc & Hb & Hconf & _ & Hn & _).
  exists o, c, tx, pre. auto.
Defined.

Lemma unreadable_chain_state_sends_nothing_witness :
  exists t,
    process_withdrawal no_gas_price_chain example_globals example_wallet PyFloat.f1_5
      None []
    = (Raise (HTTPException 500 "All withdrawal methods exhausted"), t)
    /\ attempts t = [] /\ broadcasts t = [] /\ built t = [].
Proof.
  apply (unreadable_chain_state_sends_nothing no_gas_price_chain example_globals
           example_wallet PyFloat.f1_5 None []).
  - reflexivity.
  - reflexivity.
  - reflexivity.
  - left. intros h'. eexists. reflexivity.
Defined.

Lemma invalid_amounts_are_not_400_witness :
  response_status
    (fst (withdraw_endpoint (example_chain [] true true) example_globals true
            (mkData (Some example_wallet) (AmountValue S754_nan) None None) [])) = 500.
Proof.
  apply (proj2 (proj2 (proj2 (invalid_amounts_are_not_400 (example_chain [] true true)
                                 example_globals example_wallet [])
                         S754_nan None (or_introl eq_refl)))).
  reflexivity.
Defined.

Lemma private_key_gets_prefix_witness :
  exists r t key,
    init_web3 (example_chain [] true true) key_only_config [] = (r, t)
    /\ In (CFromKey key) (calls t)
    /\ String.prefix "0x" key = true
    /\ key = ("0x" ++ ADMIN_PRIVATE_KEY key_only_config)%string.
Proof.
  destruct (init_web3 (example_chain [] true true) key_only_config []) as [r t] eqn:E.
  assert (Hin : In (CFromKey ("0x" ++ ADMIN_PRIVATE_KEY key_only_config)%string) (calls t)).
  { vm_compute in E. inversion E. vm_compute. left. reflexivity. }
  destruct (private_key_gets_prefix _ _ _ _ _ _ E Hin) as (H1 & _ & H3 & _).
  exists r, t, ("0x" ++ ADMIN_PRIVATE_KEY key_only_config)%string.
  split; [reflexivity|]. split; [exact Hin|]. split; [exact H1 | reflexivity].
Defined.

Lemma failed_connection_keeps_globals_witness :
  exists g t,
    init_web3 no_gas_price_chain example_config [] = (Ok (false, g), t)
    /\ signer_ready g = true.
Proof.
  destruct (init_web3 no_gas_price_chain example_config []) as [r t] eqn:E.
  assert (Er : exists g, r = Ok (false, g)).
  { vm_compute in E. inversion E. eexists. reflexivity. }
  destruct Er as (g & ->).
  assert (Hin : In CIsConnected (calls t)).
  { vm_compute in E. inversion E. vm_compute. tauto. }
  exists g, t. split; [reflexivity|].
  exact (proj1 (failed_connection_keeps_globals _ _ _ _ _ _ E Hin)).
Defined.

Lemma wallet_source_names_the_path_witness :
  wallet_source key_only_config = "private_key"
  /\ wallet_source example_config = "seed_phrase".
Proof.
  destruct (init_web3 (example_chain [] true true) key_only_config []) as [r t] eqn:E.
  destruct (wallet_source_names_the_path _ _ _ _ _ E) as (_ & H2 & _).
  split; [|reflexivity].
  apply (H2 ("0x" ++ ADMIN_PRIVATE_KEY key_only_config)%string).
  vm_compute in E. inversion E. vm_compute. left. reflexivity.
Defined.

(** ** From initialisation to the endpoint *)

Lemma init_web3_true_globals chain cfg h g t :
  init_web3 chain cfg h = (Ok (true, g), t) ->
  exists w a key,
    web3_instance g = Some w /\ admin_account g = Some a
    /\ admin_private_key g = Some key /\ admin_address g = Some (acct_address a).
Proof.
  unfold init_web3, init_wallet, check_balance. unfold_monad.
  run_all; intros E; inversion E; subst; cbn;
    eexists; eexists; eexists; repeat split; reflexivity.
Qed.

(** X20. When [init_web3] returns [True], all four globals are assigned
    and the signer address is the address of the loaded account; with these
    globals the dispatcher never raises its own 503. *)
Theorem successful_init_makes_dispatcher_ready
  (chain : ChainClient) (cfg : Config) (h : History) (g : Globals) (t : list Event) :
  init_web3 chain cfg h = (Ok (true, g), t) ->
  (exists w a key,
      web3_instance g = Some w /\ admin_account g = Some a
      /\ admin_private_key g = Some key /\ admin_address g = Some (acct_address a))
  /\ (forall user_wallet amount_requested preferred h' e t',
        process_withdrawal chain g user_wallet amount_requested preferred h' = (Raise e, t') ->
        e = ValueError "Invalid wallet address"
        \/ e = ValueError "Invalid amount"
        \/ e = HTTPException 500 "All withdrawal methods exhausted").
Proof.
  intros E. split; [now apply (init_web3_true_globals chain cfg h g t)|].
  pose proof (init_web3_true_signer_ready _ _ _ _ _ E) as Hs.
  intros user_wallet amount_requested preferred h' e t'. unfold process_withdrawal.
  unfold signer_ready in Hs. apply andb_true_iff in Hs. destruct Hs as [-> ->].
  cbn [negb orb].
  destruct (negb (is_address chain user_wallet)); [intros E'; inversion E'; auto|].
  destruct (PyFloat.le_zero amount_requested); [intros E'; inversion E'; auto|].
  unfold_monad. cbn -[dispatch_loop enumerate contract_ordering CONTRACTS].
  destruct (dispatch_loop_total chain g user_wallet amount_requested
              (enumerate (contract_ordering CONTRACTS preferred))
              (h' ++ [ELog (LProcessing amount_requested user_wallet)])) as (r & tl & El).
  rewrite El. destruct r; cbn; intros E'; inversion E'; auto.
Qed.

Lemma successful_init_makes_dispatcher_ready_witness :
  exists g t,
    init_web3 (example_chain [] true true) example_config [] = (Ok (true, g), t)
    /\ admin_address g = Some (acct_address example_account).
Proof.
  destruct (init_web3 (example_chain [] true true) example_config []) as [r t] eqn:E.
  assert (Er : exists g, r = Ok (true, g)
                         /\ admin_account g = Some example_account).
  { vm_compute in E. inversion E. eexists. split; reflexivity. }
  destruct Er as (g & -> & Ha).
  destruct (successful_init_makes_dispatcher_ready _ _ _ _ _ E)
    as ((w & a & key & _ & Ha' & _ & Hadr) & _).
  exists g, t. split; [reflexivity|]. rewrite Ha in Ha'. inversion Ha'; subst a. exact Hadr.
Defined.

(** X21. The endpoint itself never talks to the chain: either no call is
    made at all and the request is refused, or every call, attempt and
    broadcast of the request is one of the single run of the dispatcher it
    starts, with the wallet, the amount and the preferred contract of the
    request. *)
Theorem endpoint_only_dispatches
  (chain : ChainClient) (g : Globals) (web3_ready : bool) (data : WithdrawData)
  (h : History) (r : Result Outcome) (t : list Event) :
  withdraw_endpoint chain g web3_ready data h = (r, t) ->
  (t = [] /\ exists e, r = Raise e)
  \/ (exists user_wallet amount_requested rd td,
        walletAddress data = Some user_wallet
        /\ float_of_amount (amount data) = Ok amount_requested
        /\ process_withdrawal chain g user_wallet amount_requested (tokenAddress data)
             (h ++ [ELog (LWithdrawalRequest amount_requested user_wallet)]) = (rd, td)
        /\ calls t = calls td
        /\ attempts t = attempts td
        /\ broadcasts t = broadcasts td
        /\ (forall o, rd = Ok o -> r = Ok o)).
Proof.
  destruct web3_ready; [|cbn; intros E; inversion E; subst; left; eauto].
  destruct (float_of_amount (amount data)) as [x|e] eqn:Ex.
  - destruct (walletAddress data) as [w|] eqn:Ew.
    + destruct (str_truthy w) eqn:Ht; [destruct (PyFloat.le_zero x) eqn:Hz|].
      * unfold withdraw_endpoint. unfold_monad. rewrite Ex, Ew. cbn. rewrite Ht, Hz. cbn.
        intros E; inversion E; subst. left. eauto.
      * rewrite (withdraw_endpoint_unfold chain g data h x w Ex Ew Ht Hz). cbv zeta.
        destruct (process_withdrawal chain g w x (tokenAddress data)
                    (h ++ [ELog (LWithdrawalRequest x w)])) as [rd td] eqn:Ep.
        intros E. right. exists w, x, rd, td.
        split; [reflexivity|]. split; [reflexivity|]. split; [exact Ep|].
        destruct rd as [o|e]; inversion E; subst; cbn;
          rewrite calls_app, attempts_app, broadcasts_app; cbn; rewrite !app_nil_r;
          repeat split; try reflexivity; intros o' Eo; congruence.
      * unfold withdraw_endpoint. unfold_monad. rewrite Ex, Ew. cbn. rewrite Ht. cbn.
        intros E; inversion E; subst. left. eauto.
    + unfold withdraw_endpoint. unfold_monad. rewrite Ex, Ew. cbn.
      intros E; inversion E; subst. left. eauto.
  - unfold withdraw_endpoint. unfold_monad. rewrite Ex. cbn.
    intros E; inversion E; subst. left. eauto.
Qed.

Lemma endpoint_only_dispatches_witness :
  exists r t,
    withdraw_endpoint (example_chain third_only true true) example_globals true
      (mkData (Some example_wallet) (AmountValue PyFloat.f1_5) None None) [] = (r, t)
    /\ List.length (broadcasts t) = 6%nat.
Proof.
  destruct (withdraw_endpoint (example_chain third_only true true) example_globals true
              (mkData (Some example_wallet) (AmountValue PyFloat.f1_5) None None) [])
    as [r t] eqn:E.
  exists r, t. split; [reflexivity|].
  destruct (endpoint_only_dispatches _ _ _ _ _ _ _ E)
    as [[-> _]|(w & x & rd & td & Ew & Ex & Ep & _ & _ & Hb & _)].
  - vm_compute in E. inversion E.
  - rewrite Hb. cbn in Ew, Ex. inversion Ew; subst w. inversion Ex; subst x.
    vm_compute in Ep. inversion Ep. reflexivity.
Defined.
